(** * The daemon boilerplate: lifecycle controller and periodic worker

    A shallow embedding of [app::Daemon] (daemon.hpp, lib/daemon.cpp) and
    of [app::task::TaskController] (task-abstracting/taskController.hpp),
    with the properties their design document states about them.

    The controller is a singleton whose member functions mutate its
    fields, print on the standard streams, fork and write a file; the
    embedding threads one [Machine] value through a small state monad.
    Besides the object and the process environment the machine carries a
    ghost [trace] of what the controller did (state writes, hook calls,
    detach attempts, PID-file accesses), so that "exactly once", "never"
    and "first ..., then ..." can be stated.

    The embedding is sequential. A signal is delivered between two member
    calls, not inside one (but for the poll [isRunning_async] of the
    simple host, which takes the signals that land between its accesses
    to the state as an input); a hook is a closure over the process
    environment and does not call back into the controller. The worker
    runs against an oracle for what the other threads do to the stop
    state and the condition variable while it serves and while it waits;
    its loop need not end, so it is run with fuel.

    Two hosts of the controller are embedded as well: the program of
    [daemon_simple/main.cpp] with its option parser, console and main
    loop, and the option parser of [daemon_app]. What [getopt_long] and
    [getchar] return, and which signals arrive around and inside each
    poll, are inputs of these models. *)

From Stdlib Require Import ZArith Ascii String List Bool Lia.
From Stdlib Require Import DecimalString DecimalZ.
From stdpp Require Import base option list gmap strings.

Local Open Scope string_scope.
Local Open Scope list_scope.
Local Open Scope Z_scope.

(** ** Data model *)

(** [enum class State : uint8_t { Start, Running, Reload, Stop, User1, User2 }] *)
Inductive State : Set := Start | Running | Reload | Stop | User1 | User2.

Definition state_eqb (a b : State) : bool :=
  match a, b with
  | Start, Start | Running, Running | Reload, Reload
  | Stop, Stop | User1, User1 | User2, User2 => true
  | _, _ => false
  end.

(** [std::optional<bool>]: [Some true] succeeded, [Some false] failed,
    [None] is [std::nullopt] (no opinion). *)
Definition Outcome : Type := option bool.

(** [o == b] for [std::optional<bool> o] and [bool b]: an empty optional
    is equal to no value. *)
Definition optional_eq (o : Outcome) (b : bool) : bool :=
  match o with
  | Some v => Bool.eqb v b
  | None => false
  end.

(** The five hook slots of the controller. *)
Inductive Hook : Set := HStart | HReload | HUser1 | HUser2 | HClose.

(** What [daemon(3)] does the next time it is called: the process goes on
    as the forked child, or the call fails with an [errno]. *)
Inductive DetachResult : Set :=
| DetachOk (child : Z)
| DetachFail (err : Z).

(** The part of the process environment the controller touches. The three
    function fields are the operating system's answers, which the program
    does not decide: the outcome of the n-th [daemon(3)] call, whether a
    path can be opened for writing, and the text of an [errno]. *)
Record Env : Type := {
  e_pid : Z;
  e_cwd : string;
  e_errno : Z;
  e_stdio_null : bool;
  e_cout : list string;
  e_cerr : list string;
  e_files : gmap string string;
  e_detach_calls : nat;
  e_detach : nat -> DetachResult;
  e_openable : string -> bool;
  e_strerror : Z -> string
}.

(** [std::function<std::optional<bool>()>]: empty, or a closure that runs
    in the process environment (it may print, or write files) and reports
    an outcome. *)
Definition Callback : Type := Env -> Outcome * Env.
Definition Handler : Type := option Callback.

(** The member variables of [class Daemon]. *)
Record Daemon : Type := {
  m_State : State;
  m_Pid : Z;
  m_IsInitialized : bool;
  m_PidFileName : string;
  m_HandlerBeforeToStart : Handler;
  m_HandlerReload : Handler;
  m_HandlerUser1 : Handler;
  m_HandlerUser2 : Handler;
  m_HandlerBeforeToExit : Handler
}.

(** Ghost record of the controller's own actions, oldest first. *)
Inductive Event : Type :=
| EvAssign (s : State)
| EvInvoke (h : Hook) (r : Outcome)
| EvDetach (r : DetachResult)
| EvOpen (path : string) (ok : bool)
| EvWrite (path : string) (text : string).

Record Machine : Type := {
  dmn : Daemon;
  env : Env;
  trace : list Event
}.

(** Platform signal numbers ([<csignal>]); the five are the labels of one
    [switch], hence pairwise different. *)
Class Signals : Type := {
  SIGHUP : Z;
  SIGINT : Z;
  SIGTERM : Z;
  SIGUSR1 : Z;
  SIGUSR2 : Z;
  signals_distinct : NoDup [SIGINT; SIGTERM; SIGHUP; SIGUSR1; SIGUSR2]
}.

(** ** The state monad *)

Definition M (A : Type) : Type := Machine -> A * Machine.

Definition ret {A : Type} (a : A) : M A := fun m => (a, m).

Definition bind {A B : Type} (c : M A) (k : A -> M B) : M B :=
  fun m => let (a, m') := c m in k a m'.

Notation "x <-- c ;; k" := (bind c (fun x => k))
  (at level 100, c at next level, right associativity).
Notation "c ;; k" := (bind c (fun _ => k))
  (at level 100, right associativity).

Definition gets {A : Type} (f : Daemon -> A) : M A :=
  fun m => (f (dmn m), m).

Definition modify_dmn (f : Daemon -> Daemon) : M unit :=
  fun m => (tt, {| dmn := f (dmn m); env := env m; trace := trace m |}).

Definition modify_env (f : Env -> Env) : M unit :=
  fun m => (tt, {| dmn := dmn m; env := f (env m); trace := trace m |}).

Definition emit (ev : Event) : M unit :=
  fun m => (tt, {| dmn := dmn m; env := env m; trace := trace m ++ [ev] |}).

(** *** Field updates *)

Definition with_State (s : State) (d : Daemon) : Daemon :=
  {| m_State := s; m_Pid := m_Pid d; m_IsInitialized := m_IsInitialized d;
     m_PidFileName := m_PidFileName d;
     m_HandlerBeforeToStart := m_HandlerBeforeToStart d;
     m_HandlerReload := m_HandlerReload d;
     m_HandlerUser1 := m_HandlerUser1 d;
     m_HandlerUser2 := m_HandlerUser2 d;
     m_HandlerBeforeToExit := m_HandlerBeforeToExit d |}.

Definition with_Pid (p : Z) (d : Daemon) : Daemon :=
  {| m_State := m_State d; m_Pid := p; m_IsInitialized := m_IsInitialized d;
     m_PidFileName := m_PidFileName d;
     m_HandlerBeforeToStart := m_HandlerBeforeToStart d;
     m_HandlerReload := m_HandlerReload d;
     m_HandlerUser1 := m_HandlerUser1 d;
     m_HandlerUser2 := m_HandlerUser2 d;
     m_HandlerBeforeToExit := m_HandlerBeforeToExit d |}.

Definition with_IsInitialized (b : bool) (d : Daemon) : Daemon :=
  {| m_State := m_State d; m_Pid := m_Pid d; m_IsInitialized := b;
     m_PidFileName := m_PidFileName d;
     m_HandlerBeforeToStart := m_HandlerBeforeToStart d;
     m_HandlerReload := m_HandlerReload d;
     m_HandlerUser1 := m_HandlerUser1 d;
     m_HandlerUser2 := m_HandlerUser2 d;
     m_HandlerBeforeToExit := m_HandlerBeforeToExit d |}.

Definition with_PidFileName (n : string) (d : Daemon) : Daemon :=
  {| m_State := m_State d; m_Pid := m_Pid d;
     m_IsInitialized := m_IsInitialized d; m_PidFileName := n;
     m_HandlerBeforeToStart := m_HandlerBeforeToStart d;
     m_HandlerReload := m_HandlerReload d;
     m_HandlerUser1 := m_HandlerUser1 d;
     m_HandlerUser2 := m_HandlerUser2 d;
     m_HandlerBeforeToExit := m_HandlerBeforeToExit d |}.

Definition handler_of (h : Hook) (d : Daemon) : Handler :=
  match h with
  | HStart => m_HandlerBeforeToStart d
  | HReload => m_HandlerReload d
  | HUser1 => m_HandlerUser1 d
  | HUser2 => m_HandlerUser2 d
  | HClose => m_HandlerBeforeToExit d
  end.

Definition with_Handler (h : Hook) (f : Handler) (d : Daemon) : Daemon :=
  {| m_State := m_State d; m_Pid := m_Pid d;
     m_IsInitialized := m_IsInitialized d; m_PidFileName := m_PidFileName d;
     m_HandlerBeforeToStart :=
       match h with HStart => f | _ => m_HandlerBeforeToStart d end;
     m_HandlerReload := match h with HReload => f | _ => m_HandlerReload d end;
     m_HandlerUser1 := match h with HUser1 => f | _ => m_HandlerUser1 d end;
     m_HandlerUser2 := match h with HUser2 => f | _ => m_HandlerUser2 d end;
     m_HandlerBeforeToExit :=
       match h with HClose => f | _ => m_HandlerBeforeToExit d end |}.

Definition env_cout (line : string) (e : Env) : Env :=
  {| e_pid := e_pid e; e_cwd := e_cwd e; e_errno := e_errno e;
     e_stdio_null := e_stdio_null e;
     e_cout := if e_stdio_null e then e_cout e else e_cout e ++ [line];
     e_cerr := e_cerr e; e_files := e_files e;
     e_detach_calls := e_detach_calls e; e_detach := e_detach e;
     e_openable := e_openable e; e_strerror := e_strerror e |}.

Definition env_cerr (line : string) (e : Env) : Env :=
  {| e_pid := e_pid e; e_cwd := e_cwd e; e_errno := e_errno e;
     e_stdio_null := e_stdio_null e;
     e_cout := e_cout e;
     e_cerr := if e_stdio_null e then e_cerr e else e_cerr e ++ [line];
     e_files := e_files e;
     e_detach_calls := e_detach_calls e; e_detach := e_detach e;
     e_openable := e_openable e; e_strerror := e_strerror e |}.

Definition env_files (fs : gmap string string) (e : Env) : Env :=
  {| e_pid := e_pid e; e_cwd := e_cwd e; e_errno := e_errno e;
     e_stdio_null := e_stdio_null e;
     e_cout := e_cout e; e_cerr := e_cerr e; e_files := fs;
     e_detach_calls := e_detach_calls e; e_detach := e_detach e;
     e_openable := e_openable e; e_strerror := e_strerror e |}.

(** The process after a successful [daemon(nochdir, noclose)]: it is the
    forked child; unless [nochdir] its working directory is the root;
    unless [noclose] its standard streams go to [/dev/null]. *)
Definition env_detached (child : Z) (nochdir noclose : Z) (e : Env) : Env :=
  {| e_pid := child;
     e_cwd := if nochdir =? 0 then "/" else e_cwd e;
     e_errno := e_errno e;
     e_stdio_null := if noclose =? 0 then true else e_stdio_null e;
     e_cout := e_cout e; e_cerr := e_cerr e; e_files := e_files e;
     e_detach_calls := S (e_detach_calls e); e_detach := e_detach e;
     e_openable := e_openable e; e_strerror := e_strerror e |}.

Definition env_detach_failed (err : Z) (e : Env) : Env :=
  {| e_pid := e_pid e; e_cwd := e_cwd e; e_errno := err;
     e_stdio_null := e_stdio_null e;
     e_cout := e_cout e; e_cerr := e_cerr e; e_files := e_files e;
     e_detach_calls := S (e_detach_calls e); e_detach := e_detach e;
     e_openable := e_openable e; e_strerror := e_strerror e |}.

(** ** Library and system calls used by the controller *)

(** [std::to_string(int)]: decimal digits, a leading minus sign for a
    negative number; [of_string] reads such a text back. *)
Definition to_string (n : Z) : string := NilZero.string_of_int (Z.to_int n).

Definition of_string (s : string) : option Z :=
  match NilZero.int_of_string s with
  | Some d => Some (Z.of_int d)
  | None => None
  end.

(** [std::cout << ... << std::endl] and [std::cerr << ... << std::endl]:
    one more line on the stream. *)
Definition cout_line (line : string) : M unit := modify_env (env_cout line).
Definition cerr_line (line : string) : M unit := modify_env (env_cerr line).

Definition getpid : M Z := fun m => (e_pid (env m), m).
Definition errno : M Z := fun m => (e_errno (env m), m).
Definition strerror (err : Z) : M string :=
  fun m => (e_strerror (env m) err, m).

(** [daemon(nochdir, noclose)]: 0 on success, -1 with [errno] set on
    failure. *)
Definition os_daemon (nochdir noclose : Z) : M Z :=
  fun m =>
    let r := e_detach (env m) (e_detach_calls (env m)) in
    let tr := trace m ++ [EvDetach r] in
    match r with
    | DetachOk child =>
        (0, {| dmn := dmn m;
               env := env_detached child nochdir noclose (env m);
               trace := tr |})
    | DetachFail err =>
        (-1, {| dmn := dmn m; env := env_detach_failed err (env m);
                trace := tr |})
    end.

(** A relative path names a file below the working directory. *)
Definition is_absolute (path : string) : bool :=
  match path with
  | String c _ => Ascii.eqb c "/"%char
  | EmptyString => false
  end.

Definition resolve (cwd path : string) : string :=
  if is_absolute path then path
  else if String.eqb cwd "/" then "/" +:+ path
  else cwd +:+ "/" +:+ path.

(** [std::fstream f(name, std::ios::out)] followed by [f.is_open()]: on
    success the file exists and is empty (output-only mode truncates);
    the stream is identified by the file it is bound to. *)
Definition fstream_open_out (name : string) : M (option string) :=
  fun m =>
    let p := resolve (e_cwd (env m)) name in
    if e_openable (env m) p then
      (Some p, {| dmn := dmn m;
                  env := env_files (<[p := ""]> (e_files (env m))) (env m);
                  trace := trace m ++ [EvOpen p true] |})
    else
      (None, {| dmn := dmn m; env := env m;
                trace := trace m ++ [EvOpen p false] |}).

(** [f << text; f.close()]: the text follows what the file holds. *)
Definition fstream_write (p : string) (text : string) : M unit :=
  fun m =>
    let old := default "" (e_files (env m) !! p) in
    (tt, {| dmn := dmn m;
            env := env_files (<[p := old +:+ text]> (e_files (env m))) (env m);
            trace := trace m ++ [EvWrite p text] |}).

(** ** [class Daemon] *)

(** [m_State = s] *)
Definition assign_State (s : State) : M unit :=
  modify_dmn (with_State s) ;; emit (EvAssign s).

(** [m_Handler...()] for a non-empty [std::function]. *)
Definition invoke (h : Hook) (f : Callback) : M Outcome :=
  fun m =>
    let (r, e) := f (env m) in
    (r, {| dmn := dmn m; env := e; trace := trace m ++ [EvInvoke h r] |}).

Definition startAll : M Outcome :=
  assign_State Running ;;
  f <-- gets m_HandlerBeforeToStart ;;
  match f with
  | Some cb => invoke HStart cb
  | None => ret None
  end.

Definition reloadAll : M Outcome :=
  assign_State Reload ;;
  ret None.

Definition closeAll : M Outcome :=
  assign_State Stop ;;
  f <-- gets m_HandlerBeforeToExit ;;
  match f with
  | Some cb => invoke HClose cb
  | None => ret None
  end.

Definition setStartFunction (func : Handler) : M unit :=
  modify_dmn (with_Handler HStart func).
Definition setReloadFunction (func : Handler) : M unit :=
  modify_dmn (with_Handler HReload func).
Definition setUser1Function (func : Handler) : M unit :=
  modify_dmn (with_Handler HUser1 func).
Definition setUser2Function (func : Handler) : M unit :=
  modify_dmn (with_Handler HUser2 func).
Definition setCloseFunction (func : Handler) : M unit :=
  modify_dmn (with_Handler HClose func).

Definition performReloadIfRequired : M unit :=
  assign_State Running ;;
  f <-- gets m_HandlerReload ;;
  match f with
  | Some cb =>
      r <-- invoke HReload cb ;;
      if optional_eq r false then assign_State Stop else ret tt
  | None => ret tt
  end.

Definition performUser1IfRequired : M unit :=
  assign_State Running ;;
  f <-- gets m_HandlerUser1 ;;
  match f with
  | Some cb =>
      r <-- invoke HUser1 cb ;;
      if optional_eq r false then assign_State Stop else ret tt
  | None => ret tt
  end.

Definition performUser2IfRequired : M unit :=
  assign_State Running ;;
  f <-- gets m_HandlerUser2 ;;
  match f with
  | Some cb =>
      r <-- invoke HUser2 cb ;;
      if optional_eq r false then assign_State Stop else ret tt
  | None => ret tt
  end.

Definition isRunning : M bool :=
  (s <-- gets m_State ;;
   if state_eqb s Reload then performReloadIfRequired
   else
     s <-- gets m_State ;;
     if state_eqb s User1 then performUser1IfRequired
     else
       s <-- gets m_State ;;
       if state_eqb s User2 then performUser2IfRequired
       else ret tt) ;;
  s <-- gets m_State ;;
  ret (state_eqb s Running).

Definition getState : M State := gets m_State.

Definition setState (state : State) : M unit := assign_State state.

Section WithSignals.
Context `{Signals}.

Definition kExitSignal : Z := SIGINT.
Definition kTerminateSignal : Z := SIGTERM.
Definition kReloadSignal : Z := SIGHUP.
Definition kUserSignal1 : Z := SIGUSR1.
Definition kUserSignal2 : Z := SIGUSR2.

Definition signalHandler (signal : Z) : M unit :=
  cout_line ("Interrupt signal number [" +:+ to_string signal
             +:+ "] received.") ;;
  if (signal =? kExitSignal) || (signal =? kTerminateSignal)
  then assign_State Stop
  else if signal =? kReloadSignal then assign_State Reload
  else if signal =? kUserSignal1 then assign_State User1
  else if signal =? kUserSignal2 then assign_State User2
  else ret tt.
End WithSignals.

Definition writePidToFile (pidFileName : string) : M bool :=
  if negb (String.eqb pidFileName "") then
    fileRbackStream <-- fstream_open_out pidFileName ;;
    match fileRbackStream with
    | None =>
        cerr_line ("Failed to open " +:+ pidFileName) ;;
        ret false
    | Some f =>
        pid <-- getpid ;;
        fstream_write f (to_string pid) ;;
        ret true
    end
  else ret true.

Definition makeDaemon (pidFileName : string) : M Outcome :=
  initialized <-- gets m_IsInitialized ;;
  if negb initialized then
    modify_dmn (with_IsInitialized true) ;;
    modify_dmn (with_PidFileName pidFileName) ;;
    rc <-- os_daemon 0 1 ;;
    if negb (rc =? 0) then
      err <-- errno ;;
      msg <-- strerror err ;;
      cerr_line ("Failed demonizing: " +:+ msg) ;;
      ret (Some false)
    else
      ok <-- writePidToFile pidFileName ;;
      if ok then
        pid <-- getpid ;;
        modify_dmn (with_Pid pid) ;;
        ret (Some true)
      else ret (Some false)
  else ret (Some false).

(** ** Hosts: what a program does with the controller *)

(** One use of the public interface, or the delivery of a signal to the
    handler the constructor installs. *)
Inductive Call : Type :=
| CstartAll
| CreloadAll
| CcloseAll
| CsetFunction (h : Hook) (func : Handler)
| CisRunning
| CgetState
| CsetState (state : State)
| CmakeDaemon (pidFileName : string)
| Csignal (signal : Z).

Definition discard {A : Type} (c : M A) : M unit := c ;; ret tt.

Definition setFunction (h : Hook) (func : Handler) : M unit :=
  match h with
  | HStart => setStartFunction func
  | HReload => setReloadFunction func
  | HUser1 => setUser1Function func
  | HUser2 => setUser2Function func
  | HClose => setCloseFunction func
  end.

Definition exec `{Signals} (c : Call) : M unit :=
  match c with
  | CstartAll => discard startAll
  | CreloadAll => discard reloadAll
  | CcloseAll => discard closeAll
  | CsetFunction h func => setFunction h func
  | CisRunning => discard isRunning
  | CgetState => discard getState
  | CsetState state => setState state
  | CmakeDaemon pidFileName => discard (makeDaemon pidFileName)
  | Csignal signal => signalHandler signal
  end.

Fixpoint run `{Signals} (cs : list Call) (m : Machine) : Machine :=
  match cs with
  | [] => m
  | c :: cs' => run cs' (snd (exec c m))
  end.

(** Delivery of a sequence of signals, oldest first. *)
Fixpoint deliver `{Signals} (sigs : list Z) (m : Machine) : Machine :=
  match sigs with
  | [] => m
  | s :: sigs' => deliver sigs' (snd (signalHandler s m))
  end.

(** The state a signal number stands for, if any. *)
Definition state_of_signal `{Signals} (signal : Z) : option State :=
  if (signal =? kExitSignal) || (signal =? kTerminateSignal) then Some Stop
  else if signal =? kReloadSignal then Some Reload
  else if signal =? kUserSignal1 then Some User1
  else if signal =? kUserSignal2 then Some User2
  else None.

Definition transient (s : State) : bool :=
  match s with
  | Reload | User1 | User2 => true
  | _ => false
  end.

(** The hook a transient state stands for. *)
Definition hook_of_state (s : State) : option Hook :=
  match s with
  | Reload => Some HReload
  | User1 => Some HUser1
  | User2 => Some HUser2
  | _ => None
  end.

(** How often hook [h] was called in a trace. *)
Fixpoint invocations (h : Hook) (tr : list Event) : nat :=
  match tr with
  | [] => 0%nat
  | EvInvoke h' _ :: tr' =>
      match h, h' with
      | HStart, HStart | HReload, HReload | HUser1, HUser1
      | HUser2, HUser2 | HClose, HClose => S (invocations h tr')
      | _, _ => invocations h tr'
      end
  | _ :: tr' => invocations h tr'
  end.

Definition is_invoke (ev : Event) : bool :=
  match ev with
  | EvInvoke _ _ => true
  | _ => false
  end.

Definition is_detach (ev : Event) : bool :=
  match ev with
  | EvDetach _ => true
  | _ => false
  end.

Definition is_file_access (ev : Event) : bool :=
  match ev with
  | EvOpen _ _ | EvWrite _ _ => true
  | _ => false
  end.

(** ** Concrete platform and processes, for examples *)

(** The numbers of Linux on x86 and ARM. *)
#[export] Instance linux_signals : Signals :=
  {| SIGHUP := 1; SIGINT := 2; SIGTERM := 15; SIGUSR1 := 10; SIGUSR2 := 12;
     signals_distinct :=
       bool_decide_unpack (NoDup [2; 15; 1; 10; 12]) I |}.

(** [Daemon::Daemon()] with the default member initializers. *)
Definition new_Daemon : Daemon :=
  {| m_State := Start; m_Pid := -1; m_IsInitialized := false;
     m_PidFileName := "";
     m_HandlerBeforeToStart := None; m_HandlerReload := None;
     m_HandlerUser1 := None; m_HandlerUser2 := None;
     m_HandlerBeforeToExit := None |}.

(** A process 4242 in [/home/user] whose detach succeeds as process 4243
    and which may create any file but those under [/proc]. *)
Definition sample_env : Env :=
  {| e_pid := 4242; e_cwd := "/home/user"; e_errno := 0;
     e_stdio_null := false; e_cout := []; e_cerr := [];
     e_files := ∅; e_detach_calls := 0%nat;
     e_detach := fun _ => DetachOk 4243;
     e_openable := fun p => negb (String.prefix "/proc/" p);
     e_strerror := fun _ => "Resource temporarily unavailable" |}.

(** The same process on a system where [daemon(3)] fails with EAGAIN. *)
Definition failing_env : Env :=
  {| e_pid := 4242; e_cwd := "/home/user"; e_errno := 0;
     e_stdio_null := false; e_cout := []; e_cerr := [];
     e_files := ∅; e_detach_calls := 0%nat;
     e_detach := fun _ => DetachFail 11;
     e_openable := fun p => negb (String.prefix "/proc/" p);
     e_strerror := fun _ => "Resource temporarily unavailable" |}.

Definition new_Machine (e : Env) : Machine :=
  {| dmn := new_Daemon; env := e; trace := [] |}.

(** Hooks as the example hosts write them: print a line, report. *)
Definition say (line : string) (r : Outcome) : Callback :=
  fun e => (r, env_cout line e).

(** The simple host ([daemon_simple/main.cpp]) in background mode: it
    registers its three hooks, starts, detaches and polls; a hang-up
    signal arrives, then a user signal overtaken by an interrupt; it
    closes. *)
Definition simple_session : list Call :=
  [CsetFunction HStart (Some (say "Start all function called." (Some true)));
   CsetFunction HClose (Some (say "Close all function called." (Some true)));
   CsetFunction HReload (Some (say "Reload function called." (Some true)));
   CstartAll; CmakeDaemon "daemon.pid"; CisRunning;
   Csignal 1; CisRunning;
   Csignal 10; Csignal 2; CisRunning;
   CcloseAll].

(** ** The periodic worker: [app::task::TaskController] *)

(** The closure [[&]() { event.event_condition.notify_all(); }], the only
    one this code hands to a [std::stop_callback]. *)
Inductive Action : Set := NotifyAll.

(** What the worker shares with the rest of the program: the stop state
    behind [std::stop_source] and [std::stop_token] (the flag and the
    callbacks registered at present, each under the number of its
    registration), and the condition variable of the [TaskEvent], of which
    the model keeps how often it was notified. *)
Record Shared : Type := {
  stop_flag : bool;
  stop_callbacks : list (nat * Action);
  next_registration : nat;
  notifications : nat
}.

(** [event.event_condition.notify_all()] *)
Definition notify_all (s : Shared) : Shared :=
  {| stop_flag := stop_flag s; stop_callbacks := stop_callbacks s;
     next_registration := next_registration s;
     notifications := S (notifications s) |}.

Definition perform (a : Action) (s : Shared) : Shared :=
  match a with
  | NotifyAll => notify_all s
  end.

(** [std::stop_callback cb{token, a}]: when stop was already requested the
    callback runs at once, in the constructor, and nothing is registered;
    otherwise it is registered with the stop state. The result is the
    registration the object owns. *)
Definition stop_callback_ctor (a : Action) (s : Shared)
  : option nat * Shared :=
  if stop_flag s then (None, perform a s)
  else
    (Some (next_registration s),
     {| stop_flag := false;
        stop_callbacks := stop_callbacks s ++ [(next_registration s, a)];
        next_registration := S (next_registration s);
        notifications := notifications s |}).

(** [~stop_callback()]: the callback is taken out of the stop state. *)
Definition stop_callback_dtor (reg : option nat) (s : Shared) : Shared :=
  match reg with
  | None => s
  | Some i =>
      {| stop_flag := stop_flag s;
         stop_callbacks :=
           List.filter (fun c => negb (Nat.eqb (fst c) i)) (stop_callbacks s);
         next_registration := next_registration s;
         notifications := notifications s |}
  end.

(** [stop_source::request_stop()]: the first request sets the flag and
    runs the callbacks registered at that moment; a later one does
    nothing and answers [false]. *)
Definition request_stop (s : Shared) : bool * Shared :=
  if stop_flag s then (false, s)
  else
    (true,
     fold_left (fun acc c => perform (snd c) acc) (stop_callbacks s)
       {| stop_flag := true; stop_callbacks := stop_callbacks s;
          next_registration := next_registration s;
          notifications := notifications s |}).

(** [TaskController::registerStopCallback]: the [std::stop_callback] is a
    temporary of an expression statement, destroyed when the statement
    ends. *)
Definition registerStopCallback (s : Shared) : Shared :=
  let (tmp, s1) := stop_callback_ctor NotifyAll s in
  stop_callback_dtor tmp s1.

(** Where the worker is when other threads act. *)
Inductive Phase : Set := Serving | Waiting.

(** What the worker did, oldest first: a call of the serve function with
    its argument and result, a timed wait on the condition variable with
    its timeout and whether a notification ended it, a test of the
    token, a line for the log. *)
Inductive TaskEv : Set :=
| TServe (arg res : Z)
| TWait (timeout : Z) (notified : bool)
| TCheck (stop : bool)
| TLog (line : string).

Section Worker.
(** The state the serve function closes over. *)
Context {H : Type}.

Record Worker : Type := {
  w_host : H;
  w_shared : Shared;
  w_trace : list TaskEv
}.

(** [serveFunction]: from the suggested to the actual next duration,
    with its effect on the host state; durations are counts of
    [DurationUnit]. *)
Variable serveFunction : Z -> H -> Z * H.

(** The other threads: what they do to the shared state while the
    worker is in its k-th round, serving or waiting. *)
Variable interfere : nat -> Phase -> Shared -> Shared.

(** [event.event_condition.wait_for(lck, sooner)]: the other threads
    run; a notification that arrives meanwhile ends the wait, otherwise
    the timeout does (wake-ups without cause are left out). *)
Definition wait_for (k : nat) (sooner : Z) (w : Worker) : Worker :=
  let s := interfere k Waiting (w_shared w) in
  {| w_host := w_host w; w_shared := s;
     w_trace := w_trace w
       ++ [TWait sooner (notifications (w_shared w) <? notifications s)%nat] |}.

(** The body of [while (true)] up to the test of the token. *)
Definition serve_and_wait (zeroDuration : Z) (k : nat) (sooner : Z)
    (w : Worker) : Z * Worker :=
  let s := interfere k Serving (w_shared w) in
  let (sooner', h) := serveFunction sooner (w_host w) in
  let w1 := {| w_host := h; w_shared := s;
               w_trace := w_trace w ++ [TServe sooner sooner'] |} in
  if sooner' >? 0 then (sooner', wait_for k sooner' w1)
  else (zeroDuration, w1).

(** [token.stop_requested()] *)
Definition token_stop_requested (w : Worker) : bool * Worker :=
  (stop_flag (w_shared w),
   {| w_host := w_host w; w_shared := w_shared w;
      w_trace := w_trace w ++ [TCheck (stop_flag (w_shared w))] |}).

(** [while (true) { ...; if (token.stop_requested()) break; }], at most
    [fuel] rounds of it, from round [k] on. *)
Fixpoint task_loop (zeroDuration : Z) (fuel : nat) (k : nat) (sooner : Z)
    (w : Worker) : option Worker :=
  match fuel with
  | O => None
  | S fuel' =>
      let (sooner', w1) := serve_and_wait zeroDuration k sooner w in
      let (stop, w2) := token_stop_requested w1 in
      if stop then Some w2
      else task_loop zeroDuration fuel' (S k) sooner' w2
  end.

Definition runTask (defDuration zeroDuration : Z) (fuel : nat)
    (w : Worker) : option Worker :=
  let sooner := defDuration in
  let w0 := {| w_host := w_host w;
               w_shared := registerStopCallback (w_shared w);
               w_trace := w_trace w |} in
  task_loop zeroDuration fuel 0 sooner w0.

(** [spdlog::info(line)] *)
Definition log_info (line : string) (w : Worker) : Worker :=
  {| w_host := w_host w; w_shared := w_shared w;
     w_trace := w_trace w ++ [TLog line] |}.

(** [TaskAppContextFunc] of the application-context host
    ([daemon_with_context/src/appContext.cpp]), the sibling of [runTask]:
    its [std::stop_callback stop_cb] is a named local that lives until the
    function returns, it starts from one second, and it keeps a
    non-positive duration as it is. The serve function stands for
    [app_context.process_executing]. *)
Fixpoint context_loop (fuel : nat) (k : nat) (sooner : Z) (w : Worker)
    : option Worker :=
  match fuel with
  | O => None
  | S fuel' =>
      let w0 := log_info ("application task ticks " +:+ to_string sooner
                          +:+ " ms") w in
      let s := interfere k Serving (w_shared w0) in
      let (sooner', h) := serveFunction sooner (w_host w0) in
      let w1 := {| w_host := h; w_shared := s;
                   w_trace := w_trace w0 ++ [TServe sooner sooner'] |} in
      let w2 := if sooner' >? 0 then wait_for k sooner' w1 else w1 in
      let (stop, w3) := token_stop_requested w2 in
      if stop then Some (log_info "stop requested for an application task" w3)
      else context_loop fuel' (S k) sooner' w3
  end.

Definition TaskAppContextFunc (fuel : nat) (w : Worker) : option Worker :=
  let sooner := 1000 in
  let (stop_cb, s) := stop_callback_ctor NotifyAll (w_shared w) in
  let w0 := log_info "application task started"
              {| w_host := w_host w; w_shared := s; w_trace := w_trace w |} in
  match context_loop fuel 0 sooner w0 with
  | Some w1 =>
      let w2 := log_info "application task completed" w1 in
      Some {| w_host := w_host w2;
              w_shared := stop_callback_dtor stop_cb (w_shared w2);
              w_trace := w_trace w2 |}
  | None => None
  end.

(** *** The worker loop in the words of the design document

    [remaining := initialDuration]; repeat: [remaining := stepFn
    (remaining)]; if [remaining > 0] wait on the wake event for up to
    [remaining], else [remaining := minDuration]; if cancellation is
    requested, break. *)

Definition cancellation_requested (w : Worker) : Prop :=
  stop_flag (w_shared w) = true.

Definition observe_token (w : Worker) : Worker :=
  snd (token_stop_requested w).

(** The document's terms, read on a worker:
    - the step function is called with the remaining duration, on the
      state it closes over, while the other threads go on; the call is
      one entry of the trace;
    - to wait on the wake event for up to [d] is to be suspended while
      the other threads go on; the wait is one entry of the trace, with
      [d] as its limit, and it is ended before [d] has passed exactly
      when the wake event was notified meanwhile;
    - to ask whether cancellation is requested is one entry of the trace
      with the answer, and changes nothing else. *)
Definition wake_event_notified (before after : Shared) : Prop :=
  (notifications before < notifications after)%nat.

Definition token_tested (answer : bool) (w : Worker) : Worker :=
  {| w_host := w_host w; w_shared := w_shared w;
     w_trace := w_trace w ++ [TCheck answer] |}.

(** One round: from the remaining duration and the worker before it to
    those after it. *)
Inductive spec_round (minDuration : Z) (k : nat)
  : Z -> Worker -> Z -> Worker -> Prop :=
| spec_round_wait remaining w remaining' h (woken : bool) w' :
    serveFunction remaining (w_host w) = (remaining', h) ->
    0 < remaining' ->
    w_host w' = h ->
    w_shared w' = interfere k Waiting (interfere k Serving (w_shared w)) ->
    w_trace w' = w_trace w ++ [TServe remaining remaining';
                               TWait remaining' woken] ->
    (woken = true <->
     wake_event_notified (interfere k Serving (w_shared w)) (w_shared w')) ->
    spec_round minDuration k remaining w remaining' w'
| spec_round_min remaining w remaining' h w' :
    serveFunction remaining (w_host w) = (remaining', h) ->
    remaining' <= 0 ->
    w_host w' = h ->
    w_shared w' = interfere k Serving (w_shared w) ->
    w_trace w' = w_trace w ++ [TServe remaining remaining'] ->
    spec_round minDuration k remaining w minDuration w'.

(** The rounds from round [k] on, up to the break. *)
Inductive spec_loop (minDuration : Z)
  : nat -> Z -> Worker -> Worker -> Prop :=
| spec_loop_break k remaining w remaining' w' :
    spec_round minDuration k remaining w remaining' w' ->
    cancellation_requested w' ->
    spec_loop minDuration k remaining w (token_tested true w')
| spec_loop_repeat k remaining w remaining' w' w'' :
    spec_round minDuration k remaining w remaining' w' ->
    ~ cancellation_requested w' ->
    spec_loop minDuration (S k) remaining' (token_tested false w') w'' ->
    spec_loop minDuration k remaining w w''.
End Worker.

Arguments Worker : clear implicits.

(** A fresh stop state and event: nothing requested, nothing registered,
    nothing notified. *)
Definition new_Shared : Shared :=
  {| stop_flag := false; stop_callbacks := []; next_registration := 0%nat;
     notifications := 0%nat |}.

(** The host that requests the stop while the worker is in the wait of
    its round [n], and does nothing else. *)
Definition stop_during_wait (n : nat) (k : nat) (p : Phase) (s : Shared)
  : Shared :=
  match p with
  | Waiting => if Nat.eqb k n then snd (request_stop s) else s
  | Serving => s
  end.

(** A serve function that always asks for the same pause. *)
Definition steady (pause : Z) (_ : Z) (h : unit) : Z * unit := (pause, h).

(** The serve function of the task example: one second more each round,
    and no pause once four seconds are reached. *)
Definition example_serve (soon : Z) (h : unit) : Z * unit :=
  (if soon >=? 4000 then 0 else soon + 1000, h).

Definition new_Worker : Worker unit :=
  {| w_host := tt; w_shared := new_Shared; w_trace := [] |}.

(** ** The hosts *)

(** [EOF] of [getchar] and of [getopt_long]; the exit statuses. *)
Definition EOF : Z := -1.
Definition EXIT_SUCCESS : Z := 0.
Definition EXIT_FAILURE : Z := 1.

(** The code of a character, and the text [std::cerr << c] prints for a
    [char]. *)
Definition chr (c : ascii) : Z := Z.of_N (N_of_ascii c).
Definition char_text (c : Z) : string := String (ascii_of_N (Z.to_N c)) "".

(** [struct DaemonConfig] with its default member initializers. *)
Record DaemonConfig : Type := {
  pidFile : string;
  isDaemon : bool;
  hasTestConsole : bool;
  pathConfigFile : string;
  pathConfigFolder : string
}.

Definition new_DaemonConfig : DaemonConfig :=
  {| pidFile := ""; isDaemon := false; hasTestConsole := false;
     pathConfigFile := ""; pathConfigFolder := "" |}.

Definition set_mode (daemon console : bool) (c : DaemonConfig)
  : DaemonConfig :=
  {| pidFile := pidFile c; isDaemon := daemon; hasTestConsole := console;
     pathConfigFile := pathConfigFile c;
     pathConfigFolder := pathConfigFolder c |}.

Definition set_pidFile (p : string) (c : DaemonConfig) : DaemonConfig :=
  {| pidFile := p; isDaemon := isDaemon c;
     hasTestConsole := hasTestConsole c;
     pathConfigFile := pathConfigFile c;
     pathConfigFolder := pathConfigFolder c |}.

Definition set_pathConfigFile (p : string) (c : DaemonConfig)
  : DaemonConfig :=
  {| pidFile := pidFile c; isDaemon := isDaemon c;
     hasTestConsole := hasTestConsole c;
     pathConfigFile := p; pathConfigFolder := pathConfigFolder c |}.

Definition set_pathConfigFolder (p : string) (c : DaemonConfig)
  : DaemonConfig :=
  {| pidFile := pidFile c; isDaemon := isDaemon c;
     hasTestConsole := hasTestConsole c;
     pathConfigFile := pathConfigFile c; pathConfigFolder := p |}.

(** A function that may end the process with [exit(status)]. *)
Inductive Flow (A : Type) : Type :=
| Continue (a : A)
| Exit (status : Z).
Arguments Continue {A} a.
Arguments Exit {A} status.

(** Lines on the standard streams, one after the other. *)
Definition couts (lines : list string) (e : Env) : Env :=
  fold_left (fun acc line => env_cout line acc) lines e.
Definition cerrs (lines : list string) (e : Env) : Env :=
  fold_left (fun acc line => env_cerr line acc) lines e.

(** [getchar()]: the next key, [EOF] once the input is used up. *)
Definition getchar (keys : list Z) : Z * list Z :=
  match keys with
  | [] => (EOF, [])
  | key :: keys' => (key, keys')
  end.

(** One row of a [struct option] table: name, whether an argument is
    required, and the value [getopt_long] returns for it (all rows have a
    null [flag]). *)
Record option_row : Type := {
  opt_name : string;
  opt_has_arg : bool;
  opt_val : Z
}.

(** What [getopt_long] can return before [EOF], for an option string that
    does not start with a colon: a character of the option string, the
    value of a long option, or the question mark for anything else. *)
Fixpoint option_letters (short_options : string) : list Z :=
  match short_options with
  | EmptyString => []
  | String c rest =>
      if Ascii.eqb c ":"%char then option_letters rest
      else chr c :: option_letters rest
  end.

Definition getopt_values (short_options : string)
    (long_options : list option_row) : list Z :=
  chr "?" :: option_letters short_options ++ map opt_val long_options.

(** *** Signals that land inside a poll

    A signal can be delivered at any point of [isRunning]. Between two
    accesses of the function to [m_State] lie: the point after each test
    of the dispatch that failed; and, in a [perform...IfRequired]
    function, the point before the reset to [Running], the one after it,
    the one after the hook has returned, and the one before the last
    comparison. A hook stays one step: a signal that lands while it runs
    is delivered before it or after it. *)
Inductive Gap : Set :=
| AfterTest1 | AfterTest2 | AfterTest3
| BeforeReset | AfterReset | AfterHook | BeforeAnswer.

Definition arrive `{Signals} (sigs : list Z) : M unit :=
  fun m => (tt, deliver sigs m).

(** The three [perform...IfRequired] functions, which differ in the hook
    slot only, with the signals [inside] delivers at each point. *)
Definition perform_async `{Signals} (inside : Gap -> list Z) (h : Hook)
  : M unit :=
  arrive (inside BeforeReset) ;;
  assign_State Running ;;
  arrive (inside AfterReset) ;;
  f <-- gets (handler_of h) ;;
  match f with
  | Some cb =>
      r <-- invoke h cb ;;
      arrive (inside AfterHook) ;;
      (if optional_eq r false then assign_State Stop else ret tt) ;;
      arrive (inside BeforeAnswer)
  | None =>
      arrive (inside AfterHook) ;;
      arrive (inside BeforeAnswer)
  end.

(** [isRunning] with the signals [inside] delivers at each point. *)
Definition isRunning_async `{Signals} (inside : Gap -> list Z) : M bool :=
  (s <-- gets m_State ;;
   if state_eqb s Reload then perform_async inside HReload
   else
     arrive (inside AfterTest1) ;;
     s <-- gets m_State ;;
     if state_eqb s User1 then perform_async inside HUser1
     else
       arrive (inside AfterTest2) ;;
       s <-- gets m_State ;;
       if state_eqb s User2 then perform_async inside HUser2
       else arrive (inside AfterTest3)) ;;
  s <-- gets m_State ;;
  ret (state_eqb s Running).

(** *** The simple host: [daemon_simple/main.cpp]

    The host reads its options through [getopt_long], its console keys
    through [getchar], and sleeps or waits for a key between two polls;
    the model takes what [getopt_long] returns call by call (the value
    and [optarg]), the keys typed, and the signals that arrive around the
    k-th poll. The version text comes from a generated header. *)
Module DaemonSimple.

Inductive handleConsoleType : Set := none | exit | abort | restart | reload.

Definition show_version (verString prog : string) (e : Env) : Env :=
  env_cout (prog +:+ " v." +:+ verString) e.

Definition display_help (prog : string) (errorOption : Z) (e : Env)
  : Flow unit * Env :=
  let e1 := if negb (errorOption =? 0)
            then env_cerr ("Error in option: " +:+ char_text errorOption) e
            else e in
  let e2 := couts
    ["Usage: " +:+ prog +:+ " [OPTIONS]";
     "-D, --background         start as daemon";
     "-T, --test               start in foreground with test console";
     "-S, --cfgpath            path to folder with configuration files";
     "-x, --cfgfile            specified configuration file";
     "-P, --pidfile            create pid file";
     "-v, --version            version";
     "-h, --help               this message";
     "Sample command lines:";
     prog +:+ " -T";
     prog +:+ " -D -P /var/run/some.pid";
     prog +:+ " -T -S /app/config";
     prog +:+ " -D -x /app/config/settings.xml -P /var/run/some.pid"] e1 in
  if negb (errorOption =? 0) then (Exit EXIT_FAILURE, e2)
  else (Continue tt, e2).

Definition short_options : string := "h?vDTP:S:x:L:".

Definition long_options : list option_row :=
  [ {| opt_name := "help"; opt_has_arg := false; opt_val := 0 |};
    {| opt_name := "version"; opt_has_arg := false; opt_val := chr "v" |};
    {| opt_name := "background"; opt_has_arg := false; opt_val := chr "D" |};
    {| opt_name := "test"; opt_has_arg := false; opt_val := chr "T" |};
    {| opt_name := "pidfile"; opt_has_arg := true; opt_val := chr "P" |};
    {| opt_name := "cfgpath"; opt_has_arg := true; opt_val := chr "S" |};
    {| opt_name := "cfgfile"; opt_has_arg := true; opt_val := chr "x" |} ].

(** [results]: what the successive calls of [getopt_long] return, with
    [optarg]; after the last of them it returns [EOF]. *)
Fixpoint process_command_line (verString prog : string)
    (results : list (Z * string)) (config : DaemonConfig) (e : Env)
  : Flow DaemonConfig * Env :=
  match results with
  | [] => (Continue config, e)
  | (var, optarg) :: rest =>
      if var =? EOF then (Continue config, e)
      else if var =? 0 then
        match display_help prog 0 e with
        | (Continue _, e1) =>
            process_command_line verString prog rest config e1
        | (Exit status, e1) => (Exit status, e1)
        end
      else if (var =? chr "?") || (var =? chr "h") then
        match display_help prog 0 e with
        | (Continue _, e1) => (Exit EXIT_SUCCESS, e1)
        | (Exit status, e1) => (Exit status, e1)
        end
      else if var =? chr "v" then
        (Exit EXIT_SUCCESS, show_version verString prog e)
      else if var =? chr "D" then
        process_command_line verString prog rest (set_mode true false config) e
      else if var =? chr "F" then
        process_command_line verString prog rest (set_mode false true config) e
      else if var =? chr "P" then
        if negb (String.eqb optarg "") then
          process_command_line verString prog rest
            (set_pidFile optarg config) e
        else
          match display_help prog var e with
          | (Continue _, e1) =>
              process_command_line verString prog rest config e1
          | (Exit status, e1) => (Exit status, e1)
          end
      else if var =? chr "S" then
        if negb (String.eqb optarg "") then
          process_command_line verString prog rest
            (set_pathConfigFolder optarg config) e
        else
          match display_help prog var e with
          | (Continue _, e1) =>
              process_command_line verString prog rest config e1
          | (Exit status, e1) => (Exit status, e1)
          end
      else if var =? chr "x" then
        if negb (String.eqb optarg "") then
          process_command_line verString prog rest
            (set_pathConfigFile optarg config) e
        else
          match display_help prog var e with
          | (Continue _, e1) =>
              process_command_line verString prog rest config e1
          | (Exit status, e1) => (Exit status, e1)
          end
      else
        match display_help prog 0 e with
        | (Continue _, e1) => (Exit EXIT_FAILURE, e1)
        | (Exit status, e1) => (Exit status, e1)
        end
  end.

Definition handle_console (keys : list Z) (e : Env)
  : handleConsoleType * list Z * Env :=
  let (key, keys') := getchar keys in
  if key =? chr "a" then (abort, keys', e)
  else if key =? chr "q" then (exit, keys', e)
  else if key =? chr "R" then (restart, keys', e)
  else if key =? chr "r" then (reload, keys', e)
  else if (key =? chr "?") || (key =? chr "h") then
    (none, keys',
     cerrs ["Application test console:";
            " r   -  reload debug settings";
            " R   -  reload application";
            " q   -  quit from application.";
            " a   -  abort application.";
            " v   -  version";
            " h|? -  this information."] e)
  else (none, keys', e).

Definition with_env (e : Env) (m : Machine) : Machine :=
  {| dmn := dmn m; env := e; trace := trace m |}.

(** [while (daemon.isRunning()) { ... }]: at most [fuel] polls, from
    round [k] on. Signals are delivered between the operations of the
    controller: [arrivals k] are the ones that arrive before the k-th
    poll, after the round before; [typing k] the ones that arrive while
    the console waits for the k-th key. *)
Fixpoint main_loop `{Signals} (config : DaemonConfig)
    (arrivals typing : nat -> list Z) (fuel : nat) (k : nat)
    (keys : list Z) (m : Machine) : option (list Z * Machine) :=
  match fuel with
  | O => None
  | S fuel' =>
      let (running, m1) := isRunning (deliver (arrivals k) m) in
      if running then
        if hasTestConsole config then
          let m2 := deliver (typing k) m1 in
          let '(result, keys', e3) := handle_console keys (env m2) in
          let m3 := with_env e3 m2 in
          let m4 := match result with
                    | exit => snd (setState Stop m3)
                    | abort => snd (setState Stop m3)
                    | restart => snd (setState Reload m3)
                    | reload => snd (setState Reload m3)
                    | none => m3
                    end in
          main_loop config arrivals typing fuel' (S k) keys' m4
        else
          main_loop config arrivals typing fuel' (S k) keys m1
      else Some (keys, m1)
  end.

(** The three hooks [main] registers. *)
Definition start_hook : Callback :=
  say "Start all function called." (Some true).
Definition close_hook : Callback :=
  say "Close all function called." (Some true).
Definition reload_hook : Callback :=
  say "Reload function called." (Some true).

(** [main] from the point where the options are read. *)
Definition run_daemon `{Signals} (config : DaemonConfig) (keys : list Z)
    (arrivals typing : nat -> list Z) (fuel : nat) (daemon : Machine)
  : option (Z * Machine) :=
  let m1 := snd ((setStartFunction (Some start_hook) ;;
                  setCloseFunction (Some close_hook) ;;
                  setReloadFunction (Some reload_hook)) daemon) in
  let (result, m2) := startAll m1 in
  if optional_eq result false then
    Some (EXIT_FAILURE, snd (cerr_line "Error starting the daemon." m2))
  else
    let (result, m3) :=
      if isDaemon config then makeDaemon (pidFile config) m2
      else (None, m2) in
    if optional_eq result false then
      Some (EXIT_FAILURE, snd (cerr_line "Error starting the daemon." m3))
    else
      let m4 := if hasTestConsole config
                then snd (cout_line
                            "Press the h key to display the Console Menu..."
                            m3)
                else m3 in
      match main_loop config arrivals typing fuel 0 keys m4 with
      | None => None
      | Some (_, m5) =>
          let (result, m6) := closeAll m5 in
          if optional_eq result false then
            Some (EXIT_FAILURE,
                  snd (cerr_line "Error closing the daemon." m6))
          else
            Some (EXIT_SUCCESS,
                  snd (cout_line "The daemon process ended successfully" m6))
      end.

Definition main `{Signals} (verString prog : string)
    (results : list (Z * string)) (keys : list Z)
    (arrivals typing : nat -> list Z) (fuel : nat) (e : Env)
  : option (Z * Machine) :=
  let daemon := new_Machine e in
  match process_command_line verString prog results new_DaemonConfig e with
  | (Exit status, e1) => Some (status, with_env e1 daemon)
  | (Continue config, e1) =>
      run_daemon config keys arrivals typing fuel (with_env e1 daemon)
  end.

(** The loop and [main] once more, with signals that land inside the
    polls as well: [inside k] are the ones of the k-th poll. With
    [arrivals] these are all the signals that bear on how the host ends:
    what a signal writes before [startAll] has written [Running] is
    overwritten there, [makeDaemon] does not look at the state, and
    after the poll that ends the loop only the close hook decides the
    result. *)
Fixpoint main_loop_async `{Signals} (config : DaemonConfig)
    (arrivals typing : nat -> list Z) (inside : nat -> Gap -> list Z)
    (fuel : nat) (k : nat) (keys : list Z) (m : Machine)
  : option (list Z * Machine) :=
  match fuel with
  | O => None
  | S fuel' =>
      let (running, m1) :=
        isRunning_async (inside k) (deliver (arrivals k) m) in
      if running then
        if hasTestConsole config then
          let m2 := deliver (typing k) m1 in
          let '(result, keys', e3) := handle_console keys (env m2) in
          let m3 := with_env e3 m2 in
          let m4 := match result with
                    | exit => snd (setState Stop m3)
                    | abort => snd (setState Stop m3)
                    | restart => snd (setState Reload m3)
                    | reload => snd (setState Reload m3)
                    | none => m3
                    end in
          main_loop_async config arrivals typing inside fuel' (S k) keys' m4
        else
          main_loop_async config arrivals typing inside fuel' (S k) keys m1
      else Some (keys, m1)
  end.

Definition run_daemon_async `{Signals} (config : DaemonConfig)
    (keys : list Z) (arrivals typing : nat -> list Z)
    (inside : nat -> Gap -> list Z) (fuel : nat) (daemon : Machine)
  : option (Z * Machine) :=
  let m1 := snd ((setStartFunction (Some start_hook) ;;
                  setCloseFunction (Some close_hook) ;;
                  setReloadFunction (Some reload_hook)) daemon) in
  let (result, m2) := startAll m1 in
  if optional_eq result false then
    Some (EXIT_FAILURE, snd (cerr_line "Error starting the daemon." m2))
  else
    let (result, m3) :=
      if isDaemon config then makeDaemon (pidFile config) m2
      else (None, m2) in
    if optional_eq result false then
      Some (EXIT_FAILURE, snd (cerr_line "Error starting the daemon." m3))
    else
      let m4 := if hasTestConsole config
                then snd (cout_line
                            "Press the h key to display the Console Menu..."
                            m3)
                else m3 in
      match main_loop_async config arrivals typing inside fuel 0 keys m4 with
      | None => None
      | Some (_, m5) =>
          let (result, m6) := closeAll m5 in
          if optional_eq result false then
            Some (EXIT_FAILURE,
                  snd (cerr_line "Error closing the daemon." m6))
          else
            Some (EXIT_SUCCESS,
                  snd (cout_line "The daemon process ended successfully" m6))
      end.

End DaemonSimple.

(** *** The option parser of the application host: [daemon_app]

    The text written to a stream is kept line by line. *)
Module DaemonApp.

(** The seven texts of [OPTIONS]; the eighth element of the array is
    empty and prints nothing. *)
Definition OPTIONS : list string :=
  ["  -D, --background         start as daemon";
   "  -T, --test               start in foreground with test console";
   "  -S, --cfgpath            path to folder with configuration files";
   "  -x, --cfgfile            specified configuration file";
   "  -P, --pidfile            create pid file";
   "  -v, --version            version";
   "  -h, --help               this message"].

Definition help_options : string := "h?vDTP:S:x:L:".

Definition long_options : list option_row :=
  [ {| opt_name := "help"; opt_has_arg := false; opt_val := 0 |};
    {| opt_name := "version"; opt_has_arg := false; opt_val := chr "v" |};
    {| opt_name := "background"; opt_has_arg := false; opt_val := chr "D" |};
    {| opt_name := "test"; opt_has_arg := false; opt_val := chr "T" |};
    {| opt_name := "pidfile"; opt_has_arg := true; opt_val := chr "P" |};
    {| opt_name := "cfgpath"; opt_has_arg := true; opt_val := chr "S" |};
    {| opt_name := "cfgfile"; opt_has_arg := true; opt_val := chr "x" |} ].

Definition SAMPLE_COMMANDS : list string :=
  [" -F"; " -D -P /var/run/some.pid"; " -T -S /app/config";
   " -D -x /app/config/settings.xml -P /var/run/some.pid"].

Definition print_sample_commands (programName : string) (e : Env) : Env :=
  couts (map (fun cmd => programName +:+ cmd) SAMPLE_COMMANDS)
    (couts [""; "Sample command lines:"] e).

Definition show_version (verString prog : string) (e : Env) : Env :=
  env_cout (prog +:+ " v." +:+ verString) e.

Definition display_help (programName errorOption : string) (e : Env)
  : Flow unit * Env :=
  let e1 := if negb (String.eqb errorOption "")
            then env_cerr ("Error in option: " +:+ errorOption) e
            else e in
  let e2 := couts [""; "Usage: " +:+ programName +:+ " [OPTIONS]"; ""] e1 in
  let e3 := couts OPTIONS e2 in
  let e4 := print_sample_commands programName e3 in
  if negb (String.eqb errorOption "") then (Exit EXIT_FAILURE, e4)
  else (Continue tt, e4).

Definition handle_option_argument (option argument argv0 : string)
    (e : Env) : Flow unit * Env :=
  if String.eqb argument "" then
    display_help argv0 ""
      (env_cerr ("Missing " +:+ option +:+ " argument for option") e)
  else (Continue tt, e).

(** [results]: what the successive calls of [getopt_long] return, with
    [optarg]; after the last of them it returns -1. *)
Fixpoint process_command_line (verString argv0 : string)
    (results : list (Z * string)) (config : DaemonConfig) (e : Env)
  : Flow DaemonConfig * Env :=
  match results with
  | [] => (Continue config, e)
  | (current_option, optarg) :: rest =>
      if current_option =? -1 then (Continue config, e)
      else if current_option =? 0 then
        match display_help argv0 "" e with
        | (Continue _, e1) =>
            process_command_line verString argv0 rest config e1
        | (Exit status, e1) => (Exit status, e1)
        end
      else if (current_option =? chr "h") || (current_option =? chr "?") then
        match display_help argv0 "" e with
        | (Continue _, e1) => (Exit EXIT_SUCCESS, e1)
        | (Exit status, e1) => (Exit status, e1)
        end
      else if current_option =? chr "v" then
        (Exit EXIT_SUCCESS, show_version verString argv0 e)
      else if current_option =? chr "D" then
        process_command_line verString argv0 rest
          (set_mode true false config) e
      else if current_option =? chr "T" then
        process_command_line verString argv0 rest
          (set_mode false true config) e
      else if current_option =? chr "P" then
        match handle_option_argument "pid-file" optarg argv0 e with
        | (Continue _, e1) =>
            process_command_line verString argv0 rest
              (set_pidFile optarg config) e1
        | (Exit status, e1) => (Exit status, e1)
        end
      else if current_option =? chr "S" then
        match handle_option_argument "configuration path" optarg argv0 e with
        | (Continue _, e1) =>
            process_command_line verString argv0 rest
              (set_pathConfigFolder optarg config) e1
        | (Exit status, e1) => (Exit status, e1)
        end
      else if current_option =? chr "x" then
        match handle_option_argument "configuration file" optarg argv0 e with
        | (Continue _, e1) =>
            process_command_line verString argv0 rest
              (set_pathConfigFile optarg config) e1
        | (Exit status, e1) => (Exit status, e1)
        end
      else
        match display_help argv0 ""
                (env_cerr ("Unknown option: " +:+ to_string current_option) e)
        with
        | (Continue _, e1) =>
            process_command_line verString argv0 rest config e1
        | (Exit status, e1) => (Exit status, e1)
        end
  end.

End DaemonApp.

(** Other threads that leave the shared state alone. *)
Definition quiet (_ : nat) (_ : Phase) (s : Shared) : Shared := s.

(** A worker whose stop was requested before it starts. *)
Definition stopped_Worker : Worker unit :=
  {| w_host := tt; w_shared := snd (request_stop new_Shared);
     w_trace := [] |}.

(** ** Vocabulary of the statements *)

(** The events a hook call leaves: none for an empty [std::function]. *)
Definition invoked (h : Hook) (f : Handler) (e : Env) : list Event :=
  match f with
  | Some cb => [EvInvoke h (fst (cb e))]
  | None => []
  end.

(** The outcome a trigger of hook slot [f] reports. *)
Definition reported (f : Handler) (e : Env) : Outcome :=
  match f with
  | Some cb => fst (cb e)
  | None => None
  end.

(** The environment a trigger of hook slot [f] leaves. *)
Definition after_hook (f : Handler) (e : Env) : Env :=
  match f with
  | Some cb => snd (cb e)
  | None => e
  end.

(** The state that follows the reset to [Running] when the hook
    reported [r]. *)
Definition settled (r : Outcome) : State :=
  if optional_eq r false then Stop else Running.

(** The event of the demotion to [Stop], if the hook reported failure. *)
Definition demoted (r : Outcome) : list Event :=
  if optional_eq r false then [EvAssign Stop] else [].

(** The three [perform...IfRequired] functions are one function of the
    hook slot. *)
Definition perform_hook (h : Hook) (m : Machine) : Machine :=
  let f := handler_of h (dmn m) in
  let r := reported f (env m) in
  {| dmn := with_State (settled r) (dmn m);
     env := after_hook f (env m);
     trace := trace m ++ EvAssign Running :: invoked h f (env m)
                ++ demoted r |}.

(** A controller with a reload hook that fails, after [reloadAll]. *)
Definition reload_pending : Machine :=
  snd (reloadAll
         (snd (setReloadFunction
                 (Some (say "Reload function called." (Some false)))
                 (new_Machine sample_env)))).

(** Is this use of the interface a poll? *)
Definition is_poll (c : Call) : bool :=
  match c with
  | CisRunning => true
  | _ => false
  end.

(** The line the signal handler prints. *)
Definition signal_line (signal : Z) : string :=
  "Interrupt signal number [" +:+ to_string signal +:+ "] received.".

(** The controller once the guard and the name are stored. *)
Definition claimed (pidFileName : string) (d : Daemon) : Daemon :=
  with_PidFileName pidFileName (with_IsInitialized true d).

(** Events of the operating system: a detach or a file access. *)
Definition is_os_access (ev : Event) : bool :=
  is_detach ev || is_file_access ev.

(** Events that are neither a detach nor a file access. *)
Definition calm (evs : list Event) : bool :=
  forallb (fun ev => negb (is_os_access ev)) evs.

(** The worker once [runTask] has called [registerStopCallback]. *)
Definition enrolled {H : Type} (w : Worker H) : Worker H :=
  {| w_host := w_host w;
     w_shared := registerStopCallback (w_shared w);
     w_trace := w_trace w |}.

(** The time a worker has spent in waits that nothing ended but their
    timeout. *)
Fixpoint slept (tr : list TaskEv) : Z :=
  match tr with
  | [] => 0
  | TWait timeout false :: tr' => timeout + slept tr'
  | _ :: tr' => slept tr'
  end.

(** Registrations are numbered below the next number to be given. *)
Definition well_numbered (s : Shared) : Prop :=
  Forall (fun c => (fst c < next_registration s)%nat) (stop_callbacks s).

(** Unfolding of the monad. *)
Ltac unfold_m :=
  cbv [bind ret gets modify_dmn modify_env emit assign_State invoke discard
       getpid errno strerror cout_line cerr_line].

(** How often state [s] was written in a trace. *)
Fixpoint assigns (s : State) (tr : list Event) : nat :=
  match tr with
  | [] => 0%nat
  | EvAssign s' :: tr' =>
      if state_eqb s s' then S (assigns s tr') else assigns s tr'
  | _ :: tr' => assigns s tr'
  end.

(** One, when state [s] stands unconsumed in the controller. *)
Definition pending (s : State) (m : Machine) : nat :=
  if state_eqb (m_State (dmn m)) s then 1%nat else 0%nat.

(** The detach attempts in a trace. *)
Definition detaches (tr : list Event) : nat :=
  length (List.filter is_detach tr).

(** [n] polls in a row. *)
Fixpoint polls (n : nat) (m : Machine) : Machine :=
  match n with
  | O => m
  | S n' => polls n' (snd (isRunning m))
  end.

(** The timeouts of the waits in a worker's trace, oldest first. *)
Fixpoint timeouts (tr : list TaskEv) : list Z :=
  match tr with
  | [] => []
  | TWait timeout _ :: tr' => timeout :: timeouts tr'
  | _ :: tr' => timeouts tr'
  end.

(** The answers of the token in a worker's trace, oldest first. *)
Fixpoint checks (tr : list TaskEv) : list bool :=
  match tr with
  | [] => []
  | TCheck stop :: tr' => stop :: checks tr'
  | _ :: tr' => checks tr'
  end.

(** How often the serve function was called in a worker's trace. *)
Fixpoint serves (tr : list TaskEv) : nat :=
  match tr with
  | [] => 0%nat
  | TServe _ _ :: tr' => S (serves tr')
  | _ :: tr' => serves tr'
  end.

(** The answers of [getopt_long] that its option tables allow. *)
Definition conform (short_options : string) (long_options : list option_row)
    (results : list (Z * string)) : Prop :=
  Forall (fun r => fst r ∈ getopt_values short_options long_options) results.

(** The argument of the last option [letter] of a command line,
    [default] without one. *)
Definition last_argument (letter : Z) (results : list (Z * string))
    (default : string) : string :=
  fold_left (fun acc r => if fst r =? letter then snd r else acc)
    results default.

(** Whether an option is among the answers. *)
Definition given (letter : Z) (results : list (Z * string)) : bool :=
  existsb (fun r => fst r =? letter) results.

(** The state the last recognised signal of a burst asks for. *)
Fixpoint last_request `{Signals} (sigs : list Z) : option State :=
  match sigs with
  | [] => None
  | sig :: sigs' =>
      match last_request sigs' with
      | Some s => Some s
      | None => state_of_signal sig
      end
  end.

(** How many of the bursts [k], ..., [k + n - 1] ask for state [s]. *)
Fixpoint bursts `{Signals} (s : State) (arrivals : nat -> list Z)
    (k n : nat) : nat :=
  match n with
  | O => 0%nat
  | S n' =>
      (match last_request (arrivals k) with
       | Some s' => if state_eqb s s' then 1 else 0
       | None => 0
       end + bursts s arrivals (S k) n')%nat
  end.

(** The mode the last of the options [-D] and [-T] selects: whether to
    detach, and whether to serve the console. *)
Definition last_mode (results : list (Z * string)) (default : bool * bool)
  : bool * bool :=
  fold_left (fun acc r => if fst r =? chr "D" then (true, false)
                          else if fst r =? chr "T" then (false, true)
                          else acc)
    results default.

(** * Properties of the controller *)

(** ** What each member function computes *)

Lemma startAll_eq (m : Machine) :
  startAll m =
  (reported (m_HandlerBeforeToStart (dmn m)) (env m),
   {| dmn := with_State Running (dmn m);
      env := after_hook (m_HandlerBeforeToStart (dmn m)) (env m);
      trace := trace m ++ EvAssign Running
                 :: invoked HStart (m_HandlerBeforeToStart (dmn m)) (env m) |}).
Proof.
  unfold startAll; unfold_m; simpl.
  destruct (m_HandlerBeforeToStart (dmn m)) as [cb|]; simpl; [|reflexivity].
  destruct (cb (env m)) as [r e]; simpl.
  by rewrite <- app_assoc.
Qed.

Lemma closeAll_eq (m : Machine) :
  closeAll m =
  (reported (m_HandlerBeforeToExit (dmn m)) (env m),
   {| dmn := with_State Stop (dmn m);
      env := after_hook (m_HandlerBeforeToExit (dmn m)) (env m);
      trace := trace m ++ EvAssign Stop
                 :: invoked HClose (m_HandlerBeforeToExit (dmn m)) (env m) |}).
Proof.
  unfold closeAll; unfold_m; simpl.
  destruct (m_HandlerBeforeToExit (dmn m)) as [cb|]; simpl; [|reflexivity].
  destruct (cb (env m)) as [r e]; simpl.
  by rewrite <- app_assoc.
Qed.

Lemma reloadAll_eq (m : Machine) :
  reloadAll m =
  (None, {| dmn := with_State Reload (dmn m); env := env m;
            trace := trace m ++ [EvAssign Reload] |}).
Proof. reflexivity. Qed.

Lemma handler_of_with_State (h : Hook) (s : State) (d : Daemon) :
  handler_of h (with_State s d) = handler_of h d.
Proof. by destruct h. Qed.

Lemma perform_hook_eq (h : Hook) (body : M unit) (m : Machine) :
  body = (assign_State Running ;;
          f <-- gets (handler_of h) ;;
          match f with
          | Some cb =>
              r <-- invoke h cb ;;
              if optional_eq r false then assign_State Stop else ret tt
          | None => ret tt
          end) ->
  body m = (tt, perform_hook h m).
Proof.
  intros ->. unfold perform_hook; unfold_m; simpl.
  rewrite handler_of_with_State.
  destruct (handler_of h (dmn m)) as [cb|] eqn:Hf; simpl; [|reflexivity].
  destruct (cb (env m)) as [r e]; simpl.
  unfold settled, demoted.
  destruct (optional_eq r false); simpl; by rewrite <- ?app_assoc.
Qed.

Lemma performReloadIfRequired_eq (m : Machine) :
  performReloadIfRequired m = (tt, perform_hook HReload m).
Proof. by apply perform_hook_eq. Qed.

Lemma performUser1IfRequired_eq (m : Machine) :
  performUser1IfRequired m = (tt, perform_hook HUser1 m).
Proof. by apply perform_hook_eq. Qed.

Lemma performUser2IfRequired_eq (m : Machine) :
  performUser2IfRequired m = (tt, perform_hook HUser2 m).
Proof. by apply perform_hook_eq. Qed.

Lemma isRunning_eq (m : Machine) :
  isRunning m =
  match hook_of_state (m_State (dmn m)) with
  | Some h =>
      (state_eqb (m_State (dmn (perform_hook h m))) Running, perform_hook h m)
  | None => (state_eqb (m_State (dmn m)) Running, m)
  end.
Proof.
  unfold isRunning; unfold_m.
  destruct (m_State (dmn m)) eqn:Hs; simpl;
    repeat (rewrite ?Hs; simpl);
    rewrite ?performReloadIfRequired_eq, ?performUser1IfRequired_eq,
      ?performUser2IfRequired_eq; rewrite ?Hs; reflexivity.
Qed.

(** ** The poll: [isRunning] *)

(** C1. Called in a transient state ([Reload], [User1], [User2]),
    [isRunning] first resets the state to [Running], then calls the one
    hook of that state once if it is registered, and no other hook; the
    state becomes [Stop] when the hook reports explicit failure and stays
    [Running] when the hook is absent or reports success or nothing; the
    result is [true] exactly when the state is [Running] afterwards.
    Nothing of the controller but the state changes. *)
Theorem isRunning_consumes_transient (m : Machine) (h : Hook) :
  hook_of_state (m_State (dmn m)) = Some h ->
  let b := fst (isRunning m) in
  let m' := snd (isRunning m) in
  match handler_of h (dmn m) with
  | None =>
      trace m' = trace m ++ [EvAssign Running]
      /\ m_State (dmn m') = Running
      /\ env m' = env m
  | Some cb =>
      env m' = snd (cb (env m))
      /\ match fst (cb (env m)) with
         | Some false =>
             trace m' = trace m ++ [EvAssign Running;
                                    EvInvoke h (Some false); EvAssign Stop]
             /\ m_State (dmn m') = Stop
         | r =>
             trace m' = trace m ++ [EvAssign Running; EvInvoke h r]
             /\ m_State (dmn m') = Running
         end
  end
  /\ dmn m' = with_State (m_State (dmn m')) (dmn m)
  /\ (b = true <-> m_State (dmn m') = Running).
Proof.
  intros Hh b m'. subst b m'. rewrite isRunning_eq, Hh. simpl.
  unfold perform_hook.
  destruct (handler_of h (dmn m)) as [cb|]; simpl.
  - destruct (cb (env m)) as [[[|]|] e]; simpl; repeat split; try done.
  - repeat split; done.
Qed.

Lemma isRunning_consumes_transient_witness :
  hook_of_state (m_State (dmn reload_pending)) = Some HReload
  /\ trace (snd (isRunning reload_pending))
     = [EvAssign Reload; EvAssign Running; EvInvoke HReload (Some false);
        EvAssign Stop]
  /\ m_State (dmn (snd (isRunning reload_pending))) = Stop
  /\ fst (isRunning reload_pending) = false.
Proof.
  split; [reflexivity|].
  pose proof (isRunning_consumes_transient reload_pending HReload eq_refl)
    as (Hcb & _ & _).
  simpl in Hcb. destruct Hcb as (_ & Htr & Hst).
  split; [exact Htr|]. split; [exact Hst|]. reflexivity.
Defined.

(** In any other state the poll has no effect at all. *)
Lemma isRunning_steady (m : Machine) :
  hook_of_state (m_State (dmn m)) = None ->
  isRunning m = (state_eqb (m_State (dmn m)) Running, m).
Proof. intros Hs. by rewrite isRunning_eq, Hs. Qed.

Lemma isRunning_settles (m : Machine) :
  hook_of_state (m_State (dmn (snd (isRunning m)))) = None.
Proof.
  rewrite isRunning_eq.
  destruct (hook_of_state (m_State (dmn m))) as [h|] eqn:Hs; simpl; [|done].
  destruct (handler_of h (dmn m)) as [cb|]; simpl; [|done].
  unfold settled. by destruct (optional_eq _ _).
Qed.

(** ** [startAll] *)

(** C5. [startAll] sets the state to [Running] whatever the start hook
    reports; its result is nothing when no hook is registered and the
    hook's outcome otherwise; a second call gives the state [Running]
    again and calls the hook once more, so once per call. *)
Theorem startAll_always_Running (m : Machine) :
  let f := m_HandlerBeforeToStart (dmn m) in
  let m1 := snd (startAll m) in
  let m2 := snd (startAll m1) in
  m_State (dmn m1) = Running
  /\ fst (startAll m)
     = match f with Some cb => fst (cb (env m)) | None => None end
  /\ trace m1
     = trace m ++ EvAssign Running
         :: match f with
            | Some cb => [EvInvoke HStart (fst (cb (env m)))]
            | None => []
            end
  /\ m_State (dmn m2) = Running
  /\ fst (startAll m1)
     = match f with Some cb => fst (cb (env m1)) | None => None end
  /\ trace m2
     = trace m1 ++ EvAssign Running
         :: match f with
            | Some cb => [EvInvoke HStart (fst (cb (env m1)))]
            | None => []
            end
  /\ dmn m2 = dmn m1.
Proof.
  intros f m1 m2. subst f m1 m2. rewrite !startAll_eq. simpl.
  destruct (m_HandlerBeforeToStart (dmn m)); repeat split; done.
Qed.

(** ** [reloadAll] *)

Lemma invocations_app (h : Hook) (tr1 tr2 : list Event) :
  invocations h (tr1 ++ tr2)
  = (invocations h tr1 + invocations h tr2)%nat.
Proof.
  induction tr1 as [|ev tr1 IH]; simpl; [done|].
  destruct ev as [|h' r| | |]; try done.
  destruct h, h'; simpl; by rewrite ?IH.
Qed.

(** No use of the interface but the poll calls the reload hook. *)
Lemma exec_reload_hook `{Signals} (c : Call) (m : Machine) :
  is_poll c = false ->
  invocations HReload (trace (snd (exec c m)))
  = invocations HReload (trace m).
Proof.
  destruct c; intros Hp; try discriminate Hp; clear Hp; unfold exec.
  - unfold discard, bind. rewrite startAll_eq. simpl.
    rewrite invocations_app.
    destruct (m_HandlerBeforeToStart (dmn m)); simpl; lia.
  - unfold discard, bind. rewrite reloadAll_eq. simpl.
    rewrite invocations_app. simpl; lia.
  - unfold discard, bind. rewrite closeAll_eq. simpl.
    rewrite invocations_app.
    destruct (m_HandlerBeforeToExit (dmn m)); simpl; lia.
  - by destruct h.
  - reflexivity.
  - unfold setState; unfold_m; simpl. rewrite invocations_app. simpl; lia.
  - unfold discard, makeDaemon, writePidToFile, fstream_open_out,
      fstream_write, os_daemon; unfold_m; simpl.
    destruct (m_IsInitialized (dmn m)); simpl; [done|].
    destruct (e_detach (env m) (e_detach_calls (env m))); simpl;
      [|rewrite invocations_app; simpl; lia].
    destruct (String.eqb pidFileName ""); simpl;
      [rewrite invocations_app; simpl; lia|].
    destruct (e_openable _ _); simpl;
      rewrite !invocations_app; simpl; lia.
  - unfold signalHandler; unfold_m; simpl.
    repeat (match goal with |- context [if ?b then _ else _] =>
              destruct b end; simpl; rewrite ?invocations_app; simpl;
            try lia).
Qed.

(** C10. [reloadAll] writes the state [Reload], reports nothing and calls
    no hook; the reload hook runs in the poll that finds the state
    [Reload]; a host that goes on without ever polling, whatever else it
    calls and whatever signals arrive, never runs it. *)
Theorem reloadAll_defers_the_hook `{Signals} (m : Machine) (cs : list Call) :
  forallb (fun c => negb (is_poll c)) cs = true ->
  reloadAll m
  = (None, {| dmn := with_State Reload (dmn m); env := env m;
              trace := trace m ++ [EvAssign Reload] |})
  /\ invocations HReload (trace (run (CreloadAll :: cs) m))
     = invocations HReload (trace m)
  /\ invocations HReload (trace (snd (isRunning (snd (reloadAll m)))))
     = match m_HandlerReload (dmn m) with
       | Some _ => S (invocations HReload (trace m))
       | None => invocations HReload (trace m)
       end.
Proof.
  intros Hcs. split; [reflexivity|]. split.
  - assert (Hrun : forall cs' m', forallb (fun c => negb (is_poll c)) cs' = true ->
              invocations HReload (trace (run cs' m'))
              = invocations HReload (trace m')).
    { induction cs' as [|c cs' IH]; intros m' Hall; simpl; [done|].
      simpl in Hall. apply andb_true_iff in Hall as [Hc Hall].
      rewrite IH by done. apply exec_reload_hook. by destruct (is_poll c). }
    apply (Hrun (CreloadAll :: cs) m). simpl. exact Hcs.
  - rewrite isRunning_eq, reloadAll_eq. simpl. unfold perform_hook. simpl.
    destruct (m_HandlerReload (dmn m)) as [cb|]; simpl;
      rewrite !invocations_app; simpl.
    + unfold demoted. destruct (optional_eq _ _); simpl; lia.
    + lia.
Qed.

Lemma reloadAll_defers_the_hook_witness :
  forallb (fun c => negb (is_poll c))
    [CsetState Running; Csignal 1; CcloseAll] = true
  /\ invocations HReload
       (trace (run [CreloadAll; CsetState Running; Csignal 1; CcloseAll]
                 (snd (setReloadFunction
                         (Some (say "Reload function called." (Some true)))
                         (new_Machine sample_env))))) = 0%nat.
Proof.
  split; [reflexivity|].
  exact (proj1 (proj2
    (reloadAll_defers_the_hook
       (snd (setReloadFunction
               (Some (say "Reload function called." (Some true)))
               (new_Machine sample_env)))
       [CsetState Running; Csignal 1; CcloseAll] eq_refl))).
Defined.

(** ** The signal handler *)

Section SignalHandler.
Context `{Signals}.

Lemma signal_numbers_differ :
  SIGINT <> SIGTERM /\ SIGINT <> SIGHUP /\ SIGINT <> SIGUSR1
  /\ SIGINT <> SIGUSR2 /\ SIGTERM <> SIGHUP /\ SIGTERM <> SIGUSR1
  /\ SIGTERM <> SIGUSR2 /\ SIGHUP <> SIGUSR1 /\ SIGHUP <> SIGUSR2
  /\ SIGUSR1 <> SIGUSR2.
Proof.
  pose proof signals_distinct as Hd.
  repeat match goal with
         | Hn : NoDup (_ :: _) |- _ =>
             apply NoDup_cons in Hn; destruct Hn as [Hn ?];
             rewrite ?not_elem_of_cons in Hn
         end.
  intuition congruence.
Qed.

Lemma signalHandler_eq (signal : Z) (m : Machine) :
  signalHandler signal m =
  (tt, {| dmn := match state_of_signal signal with
                 | Some s => with_State s (dmn m)
                 | None => dmn m
                 end;
          env := env_cout (signal_line signal) (env m);
          trace := trace m ++ match state_of_signal signal with
                              | Some s => [EvAssign s]
                              | None => []
                              end |}).
Proof.
  unfold signalHandler, state_of_signal; unfold_m; simpl.
  fold (signal_line signal).
  repeat (match goal with |- context [if ?b then _ else _] =>
            destruct b end; simpl; try reflexivity).
  by rewrite app_nil_r.
Qed.

(** The handler touches the state only, and calls no hook. *)
Lemma signalHandler_frame (signal : Z) (m : Machine) :
  dmn (snd (signalHandler signal m))
  = with_State (m_State (dmn (snd (signalHandler signal m)))) (dmn m)
  /\ List.filter is_invoke (trace (snd (signalHandler signal m)))
     = List.filter is_invoke (trace m).
Proof.
  rewrite signalHandler_eq. simpl.
  destruct (state_of_signal signal); simpl.
  - split; [reflexivity|]. rewrite List.filter_app. simpl. by rewrite app_nil_r.
  - split; [by destruct (dmn m)|]. by rewrite app_nil_r.
Qed.

Lemma state_of_signal_cases (signal : Z) :
  (signal = SIGINT \/ signal = SIGTERM -> state_of_signal signal = Some Stop)
  /\ (signal = SIGHUP -> state_of_signal signal = Some Reload)
  /\ (signal = SIGUSR1 -> state_of_signal signal = Some User1)
  /\ (signal = SIGUSR2 -> state_of_signal signal = Some User2)
  /\ (signal ∉ [SIGINT; SIGTERM; SIGHUP; SIGUSR1; SIGUSR2] ->
      state_of_signal signal = None).
Proof.
  pose proof signal_numbers_differ as Hd.
  unfold state_of_signal, kExitSignal, kTerminateSignal, kReloadSignal,
    kUserSignal1, kUserSignal2.
  repeat split; intros Hs;
    rewrite ?not_elem_of_cons in Hs;
    repeat match goal with
           | |- context [?a =? ?b] => destruct (Z.eqb_spec a b)
           end; simpl; try done; exfalso; intuition congruence.
Qed.
End SignalHandler.

(** C6, as stated: the handler does nothing but write the state. It also
    prints: delivered to a fresh controller, the interrupt signal leaves a
    line on the standard output. *)
Lemma signalHandler_also_prints :
  e_cout (env (snd (signalHandler SIGINT (new_Machine sample_env))))
  = ["Interrupt signal number [2] received."]
  /\ snd (signalHandler SIGINT (new_Machine sample_env))
     <> snd (assign_State Stop (new_Machine sample_env)).
Proof.
  split; [reflexivity|].
  intros Heq. apply (f_equal (fun m => e_cout (env m))) in Heq.
  discriminate Heq.
Qed.

(** C6, amended. The handler prints one line that names the signal number
    and, apart from that, only writes the state: [Stop] for the interrupt
    and the terminate signal, [Reload] for the hang-up signal, [User1] and
    [User2] for the two user signals; any other number leaves the
    controller as it is; no hook is called for any number. *)
Theorem signalHandler_writes_state `{Signals} (signal : Z) (m : Machine) :
  let m' := snd (signalHandler signal m) in
  env m' = env_cout (signal_line signal) (env m)
  /\ (signal = SIGINT \/ signal = SIGTERM ->
      m_State (dmn m') = Stop /\ trace m' = trace m ++ [EvAssign Stop])
  /\ (signal = SIGHUP ->
      m_State (dmn m') = Reload /\ trace m' = trace m ++ [EvAssign Reload])
  /\ (signal = SIGUSR1 ->
      m_State (dmn m') = User1 /\ trace m' = trace m ++ [EvAssign User1])
  /\ (signal = SIGUSR2 ->
      m_State (dmn m') = User2 /\ trace m' = trace m ++ [EvAssign User2])
  /\ (signal ∉ [SIGINT; SIGTERM; SIGHUP; SIGUSR1; SIGUSR2] ->
      dmn m' = dmn m /\ trace m' = trace m)
  /\ dmn m' = with_State (m_State (dmn m')) (dmn m)
  /\ List.filter is_invoke (trace m') = List.filter is_invoke (trace m).
Proof.
  intros m'. subst m'. rewrite signalHandler_eq. simpl.
  destruct (state_of_signal_cases signal) as (Hstop & Hhup & Hu1 & Hu2 & Hno).
  split; [reflexivity|].
  split; [intros Hs; by rewrite (Hstop Hs)|].
  split; [intros Hs; by rewrite (Hhup Hs)|].
  split; [intros Hs; by rewrite (Hu1 Hs)|].
  split; [intros Hs; by rewrite (Hu2 Hs)|].
  split; [intros Hs; rewrite (Hno Hs); by rewrite app_nil_r|].
  pose proof (signalHandler_frame signal m) as Hframe.
  by rewrite signalHandler_eq in Hframe.
Qed.

Lemma signalHandler_writes_state_witness :
  m_State (dmn (snd (signalHandler 1 (new_Machine sample_env)))) = Reload
  /\ m_State (dmn (snd (signalHandler 15 (new_Machine sample_env)))) = Stop
  /\ dmn (snd (signalHandler 9 (new_Machine sample_env))) = new_Daemon.
Proof.
  split; [|split].
  - exact (proj1 (proj1 (proj2 (proj2
      (signalHandler_writes_state 1 (new_Machine sample_env)))) eq_refl)).
  - exact (proj1 (proj1 (proj2
      (signalHandler_writes_state 15 (new_Machine sample_env)))
      (or_intror eq_refl))).
  - refine (proj1 (proj1 (proj2 (proj2 (proj2 (proj2 (proj2
      (signalHandler_writes_state 9 (new_Machine sample_env))))))) _)).
    apply (bool_decide_unpack _). reflexivity.
Defined.

(** ** Signals between two polls *)

Lemma deliver_snoc `{Signals} (sigs : list Z) (sig : Z) (m : Machine) :
  deliver (sigs ++ [sig]) m = snd (signalHandler sig (deliver sigs m)).
Proof.
  revert m. induction sigs as [|s sigs IH]; intros m; simpl; [done|].
  apply IH.
Qed.

(** Deliveries touch the state only, and call no hook. *)
Lemma deliver_frame `{Signals} (sigs : list Z) (m : Machine) :
  dmn (deliver sigs m) = with_State (m_State (dmn (deliver sigs m))) (dmn m)
  /\ List.filter is_invoke (trace (deliver sigs m))
     = List.filter is_invoke (trace m).
Proof.
  revert m. induction sigs as [|s sigs IH]; intros m; simpl.
  - split; [by destruct (dmn m)|done].
  - destruct (IH (snd (signalHandler s m))) as [Hd Htr].
    destruct (signalHandler_frame s m) as [Hd' Htr'].
    split; [|congruence].
    rewrite Hd, Hd'. reflexivity.
Qed.

(** C2. Whatever signals arrive between two polls, the state the next poll
    finds is the one the last of them wrote, and the deliveries themselves
    call no hook. When that state is transient the poll consumes it: its
    hook, if registered, is called there, once, and the state is settled
    afterwards; a second poll without a new signal calls nothing, changes
    nothing and gives the same answer. *)
Theorem last_signal_wins `{Signals} (m : Machine) (sigs : list Z) (sig : Z)
    (s : State) :
  state_of_signal sig = Some s ->
  let m1 := deliver (sigs ++ [sig]) m in
  let m2 := snd (isRunning m1) in
  m_State (dmn m1) = s
  /\ dmn m1 = with_State s (dmn m)
  /\ List.filter is_invoke (trace m1) = List.filter is_invoke (trace m)
  /\ match hook_of_state s with
     | Some h =>
         List.filter is_invoke (trace m2)
         = List.filter is_invoke (trace m1)
             ++ match handler_of h (dmn m) with
                | Some cb => [EvInvoke h (fst (cb (env m1)))]
                | None => []
                end
         /\ transient (m_State (dmn m2)) = false
     | None => m2 = m1
     end
  /\ isRunning m2 = (fst (isRunning m1), m2).
Proof.
  intros Hs m1 m2.
  assert (Hst : m_State (dmn m1) = s).
  { subst m1. rewrite deliver_snoc, signalHandler_eq, Hs. reflexivity. }
  destruct (deliver_frame (sigs ++ [sig]) m) as [Hd Htr].
  fold m1 in Hd, Htr. rewrite Hst in Hd.
  split; [exact Hst|]. split; [exact Hd|]. split; [exact Htr|].
  split.
  - subst m2. rewrite isRunning_eq, Hst.
    destruct (hook_of_state s) as [h|] eqn:Hh; simpl; [|reflexivity].
    assert (Hf : handler_of h (dmn m1) = handler_of h (dmn m))
      by (rewrite Hd; apply handler_of_with_State).
    rewrite !Hf.
    destruct (handler_of h (dmn m)) as [cb|]; simpl.
    + rewrite List.filter_app. simpl. split.
      * unfold demoted. destruct (optional_eq _ _); simpl;
          by rewrite ?List.filter_app, ?app_nil_r.
      * unfold settled. by destruct (optional_eq _ _).
    + rewrite List.filter_app. simpl. by rewrite app_nil_r.
  - pose proof (isRunning_settles m1) as Hset. fold m2 in Hset.
    rewrite (isRunning_steady m2 Hset). f_equal.
    subst m2. rewrite isRunning_eq.
    by destruct (hook_of_state (m_State (dmn m1))).
Qed.

Lemma last_signal_wins_witness :
  state_of_signal 1 = Some Reload
  /\ m_State (dmn (deliver ([10; 2; 12] ++ [1]) (new_Machine sample_env)))
     = Reload.
Proof.
  split; [reflexivity|].
  exact (proj1 (last_signal_wins (new_Machine sample_env) [10; 2; 12] 1
                  Reload eq_refl)).
Defined.

(** ** Detaching: [makeDaemon] *)

Lemma of_to_string (n : Z) : of_string (to_string n) = Some n.
Proof.
  unfold of_string, to_string.
  rewrite NilZero.isi.
  - by rewrite DecimalZ.of_to.
  - destruct n as [|p|p]; simpl; try discriminate.
    intros [= Hp]. by apply DecimalPos.Unsigned.to_uint_nonnil in Hp.
  - destruct n as [|p|p]; simpl; try discriminate.
    intros [= Hp]. by apply DecimalPos.Unsigned.to_uint_nonnil in Hp.
Qed.

Lemma string_eqb_empty (s : string) :
  String.eqb s "" = true <-> s = "".
Proof. apply String.eqb_eq. Qed.

(** A repeated call: the guard is set, nothing happens. *)
Lemma makeDaemon_again (pidFileName : string) (m : Machine) :
  m_IsInitialized (dmn m) = true ->
  makeDaemon pidFileName m = (Some false, m).
Proof.
  intros Hi. unfold makeDaemon, bind at 1, gets at 1. rewrite Hi. reflexivity.
Qed.

Lemma makeDaemon_detach_fails (pidFileName : string) (m : Machine) (err : Z) :
  m_IsInitialized (dmn m) = false ->
  e_detach (env m) (e_detach_calls (env m)) = DetachFail err ->
  makeDaemon pidFileName m =
  (Some false,
   {| dmn := claimed pidFileName (dmn m);
      env := env_cerr ("Failed demonizing: " +:+ e_strerror (env m) err)
               (env_detach_failed err (env m));
      trace := trace m ++ [EvDetach (DetachFail err)] |}).
Proof.
  intros Hi Hd. unfold makeDaemon, os_daemon; unfold_m; simpl.
  rewrite Hi. simpl. rewrite Hd. reflexivity.
Qed.

Lemma makeDaemon_open_fails (pidFileName : string) (m : Machine) (child : Z) :
  m_IsInitialized (dmn m) = false ->
  e_detach (env m) (e_detach_calls (env m)) = DetachOk child ->
  pidFileName <> "" ->
  e_openable (env m) (resolve "/" pidFileName) = false ->
  makeDaemon pidFileName m =
  (Some false,
   {| dmn := claimed pidFileName (dmn m);
      env := env_cerr ("Failed to open " +:+ pidFileName)
               (env_detached child 0 1 (env m));
      trace := trace m ++ [EvDetach (DetachOk child);
                           EvOpen (resolve "/" pidFileName) false] |}).
Proof.
  intros Hi Hd Hn Ho.
  unfold makeDaemon, writePidToFile, fstream_open_out, os_daemon; unfold_m.
  simpl. rewrite Hi. simpl. rewrite Hd. simpl.
  destruct (String.eqb pidFileName "") eqn:He;
    [by apply string_eqb_empty in He|]. simpl.
  rewrite Ho. simpl. by rewrite <- app_assoc.
Qed.

Lemma makeDaemon_writes (pidFileName : string) (m : Machine) (child : Z) :
  m_IsInitialized (dmn m) = false ->
  e_detach (env m) (e_detach_calls (env m)) = DetachOk child ->
  pidFileName <> "" ->
  e_openable (env m) (resolve "/" pidFileName) = true ->
  makeDaemon pidFileName m =
  (Some true,
   {| dmn := with_Pid child (claimed pidFileName (dmn m));
      env := env_files (<[resolve "/" pidFileName := to_string child]>
                          (e_files (env m)))
               (env_detached child 0 1 (env m));
      trace := trace m ++ [EvDetach (DetachOk child);
                           EvOpen (resolve "/" pidFileName) true;
                           EvWrite (resolve "/" pidFileName)
                             (to_string child)] |}).
Proof.
  intros Hi Hd Hn Ho.
  unfold makeDaemon, writePidToFile, fstream_open_out, fstream_write,
    os_daemon; unfold_m.
  simpl. rewrite Hi. simpl. rewrite Hd. simpl.
  destruct (String.eqb pidFileName "") eqn:He;
    [by apply string_eqb_empty in He|]. simpl.
  rewrite Ho. simpl.
  rewrite lookup_insert_eq, insert_insert_eq. simpl.
  by rewrite <- !app_assoc.
Qed.

Lemma makeDaemon_without_file (m : Machine) (child : Z) :
  m_IsInitialized (dmn m) = false ->
  e_detach (env m) (e_detach_calls (env m)) = DetachOk child ->
  makeDaemon "" m =
  (Some true,
   {| dmn := with_Pid child (claimed "" (dmn m));
      env := env_detached child 0 1 (env m);
      trace := trace m ++ [EvDetach (DetachOk child)] |}).
Proof.
  intros Hi Hd. unfold makeDaemon, writePidToFile, os_daemon; unfold_m.
  simpl. rewrite Hi. simpl. rewrite Hd. reflexivity.
Qed.

(** C7. On the first call, when the detach succeeds: with a non-empty
    name that can be opened for writing, the file of that name holds the
    decimal text of the id of the process the call returns in (the
    detached one, which [getpid] is asked in), and nothing else; the
    controller touches no other file. With the empty name no file is
    opened or written and the call succeeds all the same. The detach has
    moved the process to the root directory, where a relative name is
    looked up. *)
Theorem makeDaemon_pid_file (m : Machine) (pidFileName : string) (child : Z) :
  m_IsInitialized (dmn m) = false ->
  e_detach (env m) (e_detach_calls (env m)) = DetachOk child ->
  let r := fst (makeDaemon pidFileName m) in
  let m' := snd (makeDaemon pidFileName m) in
  let file := resolve "/" pidFileName in
  (pidFileName <> "" -> e_openable (env m) file = true ->
   r = Some true
   /\ e_pid (env m') = child
   /\ e_files (env m') !! file = Some (to_string (e_pid (env m')))
   /\ of_string (to_string (e_pid (env m'))) = Some (e_pid (env m'))
   /\ (forall other : string, other <> file ->
       e_files (env m') !! other = e_files (env m) !! other)
   /\ List.filter is_file_access (trace m')
      = List.filter is_file_access (trace m)
          ++ [EvOpen file true; EvWrite file (to_string child)])
  /\ (pidFileName = "" ->
      r = Some true
      /\ e_files (env m') = e_files (env m)
      /\ List.filter is_file_access (trace m')
         = List.filter is_file_access (trace m)).
Proof.
  intros Hi Hd r m' file. subst r m' file. split.
  - intros Hn Ho. rewrite (makeDaemon_writes _ _ _ Hi Hd Hn Ho). simpl.
    repeat split.
    + apply lookup_insert_eq.
    + apply of_to_string.
    + intros other Hne. by apply lookup_insert_ne.
    + by rewrite List.filter_app.
  - intros ->. rewrite (makeDaemon_without_file _ _ Hi Hd). simpl.
    repeat split. rewrite List.filter_app. simpl. by rewrite app_nil_r.
Qed.

Lemma makeDaemon_pid_file_witness :
  m_IsInitialized (dmn (new_Machine sample_env)) = false
  /\ e_files (env (snd (makeDaemon "test.pid" (new_Machine sample_env))))
       !! "/test.pid" = Some "4243"
  /\ e_files (env (snd (makeDaemon "" (new_Machine sample_env)))) = ∅.
Proof.
  split; [reflexivity|].
  pose proof (makeDaemon_pid_file (new_Machine sample_env) "test.pid" 4243
                eq_refl eq_refl) as [Hfile _].
  pose proof (makeDaemon_pid_file (new_Machine sample_env) "" 4243
                eq_refl eq_refl) as [_ Hnone].
  split.
  - exact (proj1 (proj2 (proj2 (Hfile ltac:(discriminate) eq_refl)))).
  - exact (proj1 (proj2 (Hnone eq_refl))).
Defined.

(** *** The one-shot guard *)

Lemma makeDaemon_sets_guard (pidFileName : string) (m : Machine) :
  m_IsInitialized (dmn (snd (makeDaemon pidFileName m))) = true.
Proof.
  destruct (m_IsInitialized (dmn m)) eqn:Hi.
  - by rewrite makeDaemon_again.
  - destruct (e_detach (env m) (e_detach_calls (env m))) as [child|err] eqn:Hd.
    + destruct (String.eqb_spec pidFileName "") as [->|Hn].
      * by rewrite (makeDaemon_without_file _ _ Hi Hd).
      * destruct (e_openable (env m) (resolve "/" pidFileName)) eqn:Ho.
        -- by rewrite (makeDaemon_writes _ _ _ Hi Hd Hn Ho).
        -- by rewrite (makeDaemon_open_fails _ _ _ Hi Hd Hn Ho).
    + by rewrite (makeDaemon_detach_fails _ _ _ Hi Hd).
Qed.

Lemma filter_quiet (p : Event -> bool) (tr evs : list Event) :
  forallb (fun ev => negb (p ev)) evs = true ->
  List.filter p (tr ++ evs) = List.filter p tr.
Proof.
  intros Hq. rewrite List.filter_app.
  replace (List.filter p evs) with (@nil Event); [by rewrite app_nil_r|].
  induction evs as [|ev evs IH]; simpl in *; [done|].
  apply andb_true_iff in Hq as [Hev Hq].
  destruct (p ev); [done|]. by apply IH.
Qed.

Lemma calm_app (evs1 evs2 : list Event) :
  calm evs1 = true -> calm evs2 = true -> calm (evs1 ++ evs2) = true.
Proof. unfold calm. rewrite forallb_app. by intros -> ->. Qed.

Lemma calm_filter (p : Event -> bool) (tr evs : list Event) :
  (forall ev, p ev = true -> is_os_access ev = true) ->
  calm evs = true ->
  List.filter p (tr ++ evs) = List.filter p tr.
Proof.
  intros Hp Hq. apply filter_quiet.
  unfold calm in Hq. rewrite forallb_forall in Hq. apply forallb_forall.
  intros ev Hin. specialize (Hq ev Hin).
  destruct (p ev) eqn:Hpe; [|done]. by rewrite (Hp ev Hpe) in Hq.
Qed.

(** Once the guard is set no use of the interface clears it, and none
    detaches or touches a file. *)
Lemma exec_guarded `{Signals} (c : Call) (m : Machine) :
  m_IsInitialized (dmn m) = true ->
  m_IsInitialized (dmn (snd (exec c m))) = true
  /\ exists evs, trace (snd (exec c m)) = trace m ++ evs /\ calm evs = true.
Proof.
  intros Hi. destruct c; unfold exec.
  - unfold discard, bind. rewrite startAll_eq. simpl. split; [done|].
    eexists; split; [reflexivity|].
    by destruct (m_HandlerBeforeToStart (dmn m)).
  - unfold discard, bind. rewrite reloadAll_eq. simpl. split; [done|].
    by eexists.
  - unfold discard, bind. rewrite closeAll_eq. simpl. split; [done|].
    eexists; split; [reflexivity|].
    by destruct (m_HandlerBeforeToExit (dmn m)).
  - destruct h; (split; [done|]); exists []; by rewrite app_nil_r.
  - unfold discard, bind. rewrite isRunning_eq.
    destruct (hook_of_state (m_State (dmn m))) as [h|]; simpl.
    + split; [done|]. eexists; split; [reflexivity|].
      destruct (handler_of h (dmn m)); simpl; [|done].
      unfold demoted. by destruct (optional_eq _ _).
    + split; [done|]. exists []; by rewrite app_nil_r.
  - split; [done|]. exists []; simpl; by rewrite app_nil_r.
  - unfold setState; unfold_m; simpl. split; [done|]. by eexists.
  - unfold discard, bind. rewrite makeDaemon_again by done. simpl.
    split; [done|]. exists []; by rewrite app_nil_r.
  - rewrite signalHandler_eq. simpl. split.
    + by destruct (state_of_signal signal).
    + eexists; split; [reflexivity|]. by destruct (state_of_signal signal).
Qed.

Lemma run_guarded `{Signals} (cs : list Call) (m : Machine) :
  m_IsInitialized (dmn m) = true ->
  m_IsInitialized (dmn (run cs m)) = true
  /\ exists evs, trace (run cs m) = trace m ++ evs /\ calm evs = true.
Proof.
  revert m. induction cs as [|c cs IH]; intros m Hi; simpl.
  - split; [done|]. exists []; by rewrite app_nil_r.
  - destruct (exec_guarded c m Hi) as (Hi' & evs & Htr & Hq).
    destruct (IH _ Hi') as (Hi'' & evs' & Htr' & Hq').
    split; [done|]. exists (evs ++ evs'). split.
    + by rewrite Htr', Htr, app_assoc.
    + by apply calm_app.
Qed.

Lemma run_app `{Signals} (cs1 cs2 : list Call) (m : Machine) :
  run (cs1 ++ cs2) m = run cs2 (run cs1 m).
Proof.
  revert m. induction cs1 as [|c cs1 IH]; intros m; simpl; [done|].
  apply IH.
Qed.

(** C8. After a first call of [makeDaemon], whatever the host did before
    and does in between and whatever name it passes, a further call
    returns [false] and changes nothing: not the controller, not the
    process or its files, and no detach or file access is attempted. *)
Theorem makeDaemon_only_once `{Signals} (m : Machine)
    (before between : list Call) (first again : string) :
  let m1 := run (before ++ CmakeDaemon first :: between) m in
  makeDaemon again m1 = (Some false, m1).
Proof.
  intros m1. apply makeDaemon_again. subst m1.
  rewrite run_app. simpl.
  apply run_guarded. unfold discard, bind.
  pose proof (makeDaemon_sets_guard first (run before m)) as Hg.
  by destruct (makeDaemon first (run before m)).
Qed.

(** C9. When the first call fails, because the detach fails or because
    the PID file cannot be opened, the guard is set all the same: the call
    returns [false], and so does every later call, at any point of any
    later use of the controller, without a further detach attempt or file
    access. After a failed detach in particular the first call has not
    touched a file, and no later moment sees the controller touch one. *)
Theorem makeDaemon_failure_is_final `{Signals} (m : Machine)
    (pidFileName : string) :
  m_IsInitialized (dmn m) = false ->
  (exists err, e_detach (env m) (e_detach_calls (env m)) = DetachFail err)
  \/ (exists child,
        e_detach (env m) (e_detach_calls (env m)) = DetachOk child
        /\ pidFileName <> ""
        /\ e_openable (env m) (resolve "/" pidFileName) = false) ->
  let m1 := snd (makeDaemon pidFileName m) in
  fst (makeDaemon pidFileName m) = Some false
  /\ m_IsInitialized (dmn m1) = true
  /\ (forall (later : list Call) (again : string),
        makeDaemon again (run later m1) = (Some false, run later m1))
  /\ (forall later : list Call,
        List.filter is_os_access (trace (run later m1))
        = List.filter is_os_access (trace m1))
  /\ ((exists err, e_detach (env m) (e_detach_calls (env m)) = DetachFail err) ->
      e_files (env m1) = e_files (env m)
      /\ forall later : list Call,
           List.filter is_file_access (trace (run later m1))
           = List.filter is_file_access (trace m)).
Proof.
  intros Hi Hfail m1.
  assert (Hg : m_IsInitialized (dmn m1) = true)
    by apply makeDaemon_sets_guard.
  split.
  { destruct Hfail as [[err Hd]|(child & Hd & Hn & Ho)].
    - by rewrite (makeDaemon_detach_fails _ _ _ Hi Hd).
    - by rewrite (makeDaemon_open_fails _ _ _ Hi Hd Hn Ho). }
  split; [exact Hg|]. split.
  { intros later again. apply makeDaemon_again. by apply run_guarded. }
  split.
  { intros later. destruct (run_guarded later m1 Hg) as (_ & evs & -> & Hq).
    by apply calm_filter. }
  intros [err Hd].
  assert (Hm1 : e_files (env m1) = e_files (env m)
                /\ trace m1 = trace m ++ [EvDetach (DetachFail err)]).
  { subst m1. by rewrite (makeDaemon_detach_fails _ _ _ Hi Hd). }
  destruct Hm1 as [Hfiles Htr].
  split; [exact Hfiles|]. intros later.
  destruct (run_guarded later m1 Hg) as (_ & evs & -> & Hq).
  rewrite calm_filter; [|by intros []; simpl; rewrite ?orb_true_r|done].
  rewrite Htr, List.filter_app. simpl. by rewrite app_nil_r.
Qed.

Lemma makeDaemon_failure_is_final_witness :
  m_IsInitialized (dmn (new_Machine failing_env)) = false
  /\ fst (makeDaemon "test.pid" (new_Machine failing_env)) = Some false
  /\ fst (makeDaemon "test.pid"
            (run [CstartAll; CisRunning]
               (snd (makeDaemon "test.pid" (new_Machine failing_env)))))
     = Some false
  /\ fst (makeDaemon "/proc/test.pid" (new_Machine sample_env)) = Some false.
Proof.
  split; [reflexivity|].
  pose proof (makeDaemon_failure_is_final (new_Machine failing_env) "test.pid"
                eq_refl (or_introl (ex_intro _ 11 eq_refl)))
    as (Hfirst & _ & Hlater & _).
  assert (Hname : "/proc/test.pid" <> "") by discriminate.
  pose proof (makeDaemon_failure_is_final (new_Machine sample_env)
                "/proc/test.pid" eq_refl
                (or_intror (ex_intro _ 4243
                   (conj eq_refl (conj Hname eq_refl)))))
    as (Hopen & _).
  split; [exact Hfirst|]. split; [|exact Hopen].
  rewrite (Hlater [CstartAll; CisRunning] "test.pid"). reflexivity.
Defined.

(** ** A whole run *)

Example simple_session_trace :
  trace (run simple_session (new_Machine sample_env))
  = [EvAssign Running; EvInvoke HStart (Some true);
     EvDetach (DetachOk 4243); EvOpen "/daemon.pid" true;
     EvWrite "/daemon.pid" "4243";
     EvAssign Reload; EvAssign Running; EvInvoke HReload (Some true);
     EvAssign User1; EvAssign Stop;
     EvAssign Stop; EvInvoke HClose (Some true)].
Proof. reflexivity. Qed.

Example simple_session_output :
  e_cout (env (run simple_session (new_Machine sample_env)))
  = ["Start all function called.";
     "Interrupt signal number [1] received."; "Reload function called.";
     "Interrupt signal number [10] received.";
     "Interrupt signal number [2] received.";
     "Close all function called."]
  /\ e_files (env (run simple_session (new_Machine sample_env)))
       !! "/daemon.pid" = Some "4243"
  /\ m_Pid (dmn (run simple_session (new_Machine sample_env))) = 4243.
Proof. repeat split; reflexivity. Qed.

(** * Properties of the periodic worker *)

Section WorkerLoop.
Context {H : Type}.
Variable serveFunction : Z -> H -> Z * H.
Variable interfere : nat -> Phase -> Shared -> Shared.
Variable zeroDuration : Z.

Local Abbreviation loop := (task_loop serveFunction interfere zeroDuration).
Local Abbreviation body :=
  (serve_and_wait serveFunction interfere zeroDuration).
Local Abbreviation round :=
  (spec_round serveFunction interfere zeroDuration).
Local Abbreviation rounds :=
  (spec_loop serveFunction interfere zeroDuration).

(** The body of the loop does what a round of the document does. *)
Lemma serve_and_wait_round (k : nat) (sooner : Z) (w : Worker H) :
  round k sooner w (fst (body k sooner w))
    (snd (body k sooner w)).
Proof.
  unfold serve_and_wait.
  destruct (serveFunction sooner (w_host w)) as [sooner' h] eqn:Hs.
  destruct (Z.gtb_spec sooner' 0) as [Hpos|Hle]; simpl.
  - eapply spec_round_wait; try done; simpl.
    + by rewrite <- app_assoc.
    + unfold wake_event_notified. apply Nat.ltb_lt.
  - by eapply spec_round_min.
Qed.

(** A worker is its three fields. *)
Lemma Worker_eq (w w' : Worker H) :
  w_host w = w_host w' -> w_shared w = w_shared w' ->
  w_trace w = w_trace w' -> w = w'.
Proof. destruct w, w'; simpl. by intros -> -> ->. Qed.

(** And a round of the document is what the body of the loop does: the
    document leaves no choice. *)
Lemma spec_round_functional (k : nat) (sooner : Z) (w : Worker H)
    (sooner' : Z) (w' : Worker H) :
  round k sooner w sooner' w' ->
  body k sooner w = (sooner', w').
Proof.
  intros Hr. unfold serve_and_wait.
  destruct Hr as [remaining w remaining' h woken w' Hs Hpos Hh Hsh Htr Hw
                 |remaining w remaining' h w' Hs Hle Hh Hsh Htr]; rewrite Hs.
  - destruct (Z.gtb_spec remaining' 0); [|lia].
    f_equal. apply Worker_eq; simpl; try done.
    rewrite Htr, <- app_assoc. simpl.
    unfold wake_event_notified in Hw. rewrite Hsh in Hw.
    assert (Hwoken :
      woken = (notifications (interfere k Serving (w_shared w))
               <? notifications
                    (interfere k Waiting (interfere k Serving (w_shared w))))
              %nat).
    { destruct woken; symmetry.
      - apply Nat.ltb_lt. by apply Hw.
      - apply Nat.ltb_ge. apply Nat.nlt_ge. intros Hlt.
        by apply Hw in Hlt. }
    by rewrite Hwoken.
  - destruct (Z.gtb_spec remaining' 0); [lia|].
    f_equal. by apply Worker_eq.
Qed.

Lemma task_loop_sound (fuel : nat) :
  forall (k : nat) (sooner : Z) (w w' : Worker H),
    loop fuel k sooner w = Some w' -> rounds k sooner w w'.
Proof.
  induction fuel as [|fuel IH]; intros k sooner w w' Hrun; [done|].
  simpl in Hrun.
  pose proof (serve_and_wait_round k sooner w) as Hr.
  destruct (body k sooner w) as [sooner1 w1]. simpl in Hr, Hrun.
  destruct (stop_flag (w_shared w1)) eqn:Hstop.
  - injection Hrun as <-.
    by apply (spec_loop_break _ _ _ _ _ _ sooner1 w1 Hr Hstop).
  - apply (spec_loop_repeat _ _ _ _ _ _ sooner1 w1); [done| |].
    + unfold cancellation_requested. by rewrite Hstop.
    + by apply IH.
Qed.

Lemma task_loop_complete (k : nat) (sooner : Z) (w w' : Worker H) :
  rounds k sooner w w' ->
  exists fuel, loop fuel k sooner w = Some w'.
Proof.
  induction 1 as [k remaining w remaining' w' Hr Hstop
                 |k remaining w remaining' w' w'' Hr Hgo _ [fuel IH]].
  - exists 1%nat. simpl. rewrite (spec_round_functional _ _ _ _ _ Hr).
    unfold cancellation_requested in Hstop. simpl.
    by rewrite Hstop.
  - exists (S fuel). simpl. rewrite (spec_round_functional _ _ _ _ _ Hr).
    unfold cancellation_requested in Hgo.
    simpl in *. destruct (stop_flag (w_shared w')); [done|]. exact IH.
Qed.

(** More fuel does not change what the loop returns. *)
Lemma task_loop_more_fuel (fuel : nat) :
  forall (k : nat) (sooner : Z) (w w' : Worker H) (extra : nat),
    loop fuel k sooner w = Some w' ->
    loop (fuel + extra) k sooner w = Some w'.
Proof.
  induction fuel as [|fuel IH]; intros k sooner w w' extra Hrun; [done|].
  simpl in *.
  destruct (body k sooner w) as [sooner1 w1]. simpl in *.
  destruct (stop_flag (w_shared w1)); [done|]. by apply IH.
Qed.

(** Once the stop is requested and stays so, the round under way is the
    last one. *)
Lemma task_loop_stops_when_requested (k : nat) (sooner : Z) (w : Worker H) :
  (forall (j : nat) (p : Phase) (s : Shared),
      stop_flag s = true -> stop_flag (interfere j p s) = true) ->
  stop_flag (w_shared w) = true ->
  forall fuel : nat,
    loop (S fuel) k sooner w
    = Some (observe_token (snd (body k sooner w))).
Proof.
  intros Hkeep Hstop fuel. simpl.
  assert (Hflag : stop_flag (w_shared (snd (body k sooner w)))
                  = true).
  { unfold serve_and_wait.
    destruct (serveFunction sooner (w_host w)) as [sooner' h].
    destruct (sooner' >? 0); simpl; auto. }
  destruct (body k sooner w) as [sooner1 w1]. simpl in *.
  unfold observe_token. simpl. by rewrite Hflag.
Qed.

(** C4. [runTask] is the loop of the design document: it returns a worker
    exactly when the document's loop, started at round 0 with the initial
    duration as the remaining one, ends in that worker. Each round of that
    loop sets the remaining duration to the result of the step function;
    waits on the wake event with that timeout when it is positive, and
    sets it to the minimal duration when it is not; then ends the loop if
    and only if cancellation is requested. *)
Theorem runTask_is_the_specified_loop (defDuration : Z) (w w' : Worker H) :
  (exists fuel,
      runTask serveFunction interfere defDuration zeroDuration fuel w
      = Some w')
  <-> rounds 0%nat defDuration (enrolled w) w'.
Proof.
  unfold runTask. fold (enrolled w). split.
  - intros [fuel Hrun]. by apply (task_loop_sound fuel).
  - apply task_loop_complete.
Qed.
End WorkerLoop.

(** The worker of the task example, stopped during the wait of its fifth
    round: four rounds with growing pauses, one without a pause that falls
    back to the minimal duration, and the round in which it leaves. One
    round less of fuel does not get there. *)
Example example_worker_run :
  option_map w_trace
    (runTask example_serve (stop_during_wait 5) 1000 1 6 new_Worker)
  = Some [TServe 1000 2000; TWait 2000 false; TCheck false;
          TServe 2000 3000; TWait 3000 false; TCheck false;
          TServe 3000 4000; TWait 4000 false; TCheck false;
          TServe 4000 0; TCheck false;
          TServe 1 1001; TWait 1001 false; TCheck false;
          TServe 1001 2001; TWait 2001 false; TCheck true]
  /\ runTask example_serve (stop_during_wait 5) 1000 1 5 new_Worker = None.
Proof. split; reflexivity. Qed.

(** ** The cancellation observer *)

Lemma filter_other_registrations (cbs : list (nat * Action)) (n : nat) :
  Forall (fun c => (fst c < n)%nat) cbs ->
  List.filter (fun c => negb (Nat.eqb (fst c) n)) cbs = cbs.
Proof.
  induction 1 as [|c cbs Hc _ IH]; simpl; [done|].
  destruct (Nat.eqb_spec (fst c) n) as [Heq|_]; [lia|].
  simpl. by rewrite IH.
Qed.

(** While no stop is requested, [registerStopCallback] leaves the stop
    state without its observer: only a registration number is used up. *)
Lemma registerStopCallback_pending (s : Shared) :
  stop_flag s = false ->
  well_numbered s ->
  registerStopCallback s
  = {| stop_flag := false; stop_callbacks := stop_callbacks s;
       next_registration := S (next_registration s);
       notifications := notifications s |}.
Proof.
  intros Hf Hw. unfold registerStopCallback, stop_callback_ctor.
  rewrite Hf. simpl. f_equal.
  rewrite List.filter_app. simpl. rewrite Nat.eqb_refl. simpl.
  rewrite app_nil_r. by apply filter_other_registrations.
Qed.

(** When the stop was requested before, the observer runs once, inside
    [registerStopCallback]. *)
Lemma registerStopCallback_stopped (s : Shared) :
  stop_flag s = true -> registerStopCallback s = notify_all s.
Proof.
  intros Hf. unfold registerStopCallback, stop_callback_ctor.
  by rewrite Hf.
Qed.

(** A stop requested after [registerStopCallback] notifies nobody on
    behalf of the worker. *)
Lemma request_stop_after_register (s : Shared) :
  stop_flag s = false ->
  stop_callbacks s = [] ->
  notifications (snd (request_stop (registerStopCallback s)))
  = notifications s.
Proof.
  intros Hf Hnone. rewrite registerStopCallback_pending; [|done|].
  - unfold request_stop. simpl. by rewrite Hnone.
  - unfold well_numbered. rewrite Hnone. constructor.
Qed.

(** A [std::stop_callback] that is still alive when the stop is requested
    does notify. *)
Lemma request_stop_with_live_callback (s : Shared) :
  stop_flag s = false ->
  stop_callbacks s = [] ->
  notifications (snd (request_stop (snd (stop_callback_ctor NotifyAll s))))
  = S (notifications s).
Proof.
  intros Hf Hnone. unfold stop_callback_ctor, request_stop.
  rewrite Hf. simpl. by rewrite Hnone.
Qed.

(** C3. A worker with any positive pause, and a host that requests the
    stop while the worker is in its first wait (the task example does no
    more than that before it joins). The observer of [runTask] is gone by
    then, so nothing notifies the wake event: the wait ends by its timeout
    and the worker has slept the whole pause when it leaves. The worker of
    the application-context hosts, whose observer lives as long as its
    loop, is notified, wakes and has not slept at all. *)
Theorem runTask_sleeps_through_stop (pause : Z) :
  0 < pause ->
  (exists w,
      runTask (steady pause) (stop_during_wait 0) pause 1 1 new_Worker
      = Some w
      /\ w_trace w = [TServe pause pause; TWait pause false; TCheck true]
      /\ notifications (w_shared w) = 0%nat
      /\ slept (w_trace w) = pause)
  /\ (exists w,
        TaskAppContextFunc (steady pause) (stop_during_wait 0) 1 new_Worker
        = Some w
        /\ w_trace w = [TLog "application task started";
                        TLog "application task ticks 1000 ms";
                        TServe 1000 pause; TWait pause true; TCheck true;
                        TLog "stop requested for an application task";
                        TLog "application task completed"]
        /\ notifications (w_shared w) = 1%nat
        /\ slept (w_trace w) = 0).
Proof.
  intros Hpos.
  assert (Hgt : (pause >? 0) = true) by (apply Z.gtb_lt; lia).
  split.
  - unfold runTask, task_loop, serve_and_wait, steady. simpl.
    rewrite Hgt. simpl. eexists. repeat split. simpl. lia.
  - unfold TaskAppContextFunc, context_loop, steady. simpl.
    rewrite Hgt. simpl. eexists. repeat split.
Qed.

Lemma runTask_sleeps_through_stop_witness :
  0 < 60000
  /\ exists w,
       runTask (steady 60000) (stop_during_wait 0) 60000 1 1 new_Worker
       = Some w
       /\ slept (w_trace w) = 60000.
Proof.
  split; [reflexivity|].
  destruct (runTask_sleeps_through_stop 60000 eq_refl)
    as [(w & Hrun & _ & _ & Hslept) _].
  exists w. split; [exact Hrun|exact Hslept].
Defined.

(** * Further properties of the controller *)

(** ** [closeAll] *)

Lemma polls_steady (n : nat) (m : Machine) :
  hook_of_state (m_State (dmn m)) = None -> polls n m = m.
Proof.
  intros Hs. induction n as [|n IH]; simpl; [done|].
  by rewrite (isRunning_steady m Hs).
Qed.

(** X1. [closeAll] writes [Stop] whatever the close hook reports, calls
    that hook once if it is registered, and returns its outcome, or
    nothing without a hook. From then on every poll answers [false] and
    changes nothing, however often the host polls. *)
Theorem closeAll_ends_the_run (m : Machine) (n : nat) :
  let f := m_HandlerBeforeToExit (dmn m) in
  let m1 := snd (closeAll m) in
  fst (closeAll m)
  = match f with Some cb => fst (cb (env m)) | None => None end
  /\ m_State (dmn m1) = Stop
  /\ trace m1
     = trace m ++ EvAssign Stop
         :: match f with
            | Some cb => [EvInvoke HClose (fst (cb (env m)))]
            | None => []
            end
  /\ isRunning (polls n m1) = (false, m1).
Proof.
  intros f m1. subst f m1. rewrite closeAll_eq. simpl.
  split; [by destruct (m_HandlerBeforeToExit (dmn m))|].
  split; [reflexivity|].
  split; [by destruct (m_HandlerBeforeToExit (dmn m))|].
  rewrite polls_steady by reflexivity.
  by rewrite isRunning_steady.
Qed.

(** ** Registering hooks *)

(** X2. Registering a hook replaces the hook of that slot and nothing
    else: the other slots, the state, the environment and the trace stay,
    and no hook runs. Of two registrations for one slot the later one
    counts: the trigger of the slot calls it, and the replaced hook is
    not called. *)
Theorem setFunction_last_wins (h : Hook) (f g : Handler) (m : Machine) :
  let m' := snd (setFunction h g (snd (setFunction h f m))) in
  handler_of h (dmn m') = g
  /\ (forall h', h' <> h -> handler_of h' (dmn m') = handler_of h' (dmn m))
  /\ dmn m' = with_Handler h g (dmn m)
  /\ env m' = env m
  /\ trace m' = trace m
  /\ trace (snd (isRunning (snd (reloadAll
               (snd (setReloadFunction g (snd (setReloadFunction f m))))))))
     = trace m ++ [EvAssign Reload; EvAssign Running]
         ++ match g with
            | Some cb =>
                EvInvoke HReload (fst (cb (env m)))
                  :: (if optional_eq (fst (cb (env m))) false
                      then [EvAssign Stop] else [])
            | None => []
            end.
Proof.
  intros m'. subst m'.
  split; [by destruct h|]. split; [intros h' Hne; by destruct h, h'|].
  split; [by destruct h|]. split; [by destruct h|]. split; [by destruct h|].
  rewrite isRunning_eq, reloadAll_eq. simpl. unfold perform_hook. simpl.
  rewrite <- app_assoc. simpl.
  destruct g as [cb|]; simpl; [|reflexivity].
  unfold demoted. by destruct (optional_eq _ _).
Qed.

(** ** More on [makeDaemon] *)

(** All cases of [makeDaemon] in one equation. *)
Lemma makeDaemon_eq (pidFileName : string) (m : Machine) :
  makeDaemon pidFileName m =
  if m_IsInitialized (dmn m) then (Some false, m)
  else
    match e_detach (env m) (e_detach_calls (env m)) with
    | DetachFail err =>
        (Some false,
         {| dmn := claimed pidFileName (dmn m);
            env := env_cerr ("Failed demonizing: " +:+ e_strerror (env m) err)
                     (env_detach_failed err (env m));
            trace := trace m ++ [EvDetach (DetachFail err)] |})
    | DetachOk child =>
        if String.eqb pidFileName "" then
          (Some true,
           {| dmn := with_Pid child (claimed pidFileName (dmn m));
              env := env_detached child 0 1 (env m);
              trace := trace m ++ [EvDetach (DetachOk child)] |})
        else if e_openable (env m) (resolve "/" pidFileName) then
          (Some true,
           {| dmn := with_Pid child (claimed pidFileName (dmn m));
              env := env_files
                       (<[resolve "/" pidFileName := to_string child]>
                          (e_files (env m)))
                       (env_detached child 0 1 (env m));
              trace := trace m ++ [EvDetach (DetachOk child);
                                   EvOpen (resolve "/" pidFileName) true;
                                   EvWrite (resolve "/" pidFileName)
                                     (to_string child)] |})
        else
          (Some false,
           {| dmn := claimed pidFileName (dmn m);
              env := env_cerr ("Failed to open " +:+ pidFileName)
                       (env_detached child 0 1 (env m));
              trace := trace m ++ [EvDetach (DetachOk child);
                                   EvOpen (resolve "/" pidFileName) false] |})
    end.
Proof.
  destruct (m_IsInitialized (dmn m)) eqn:Hi; [by apply makeDaemon_again|].
  destruct (e_detach (env m) (e_detach_calls (env m))) as [child|err] eqn:Hd;
    [|by apply makeDaemon_detach_fails].
  destruct (String.eqb_spec pidFileName "") as [->|Hn];
    [by apply makeDaemon_without_file|].
  destruct (e_openable (env m) (resolve "/" pidFileName)) eqn:Ho.
  - by apply makeDaemon_writes.
  - by apply makeDaemon_open_fails.
Qed.

Lemma assigns_app (s : State) (tr1 tr2 : list Event) :
  assigns s (tr1 ++ tr2) = (assigns s tr1 + assigns s tr2)%nat.
Proof.
  induction tr1 as [|ev tr1 IH]; simpl; [done|].
  destruct ev as [s'| | | |]; try done.
  destruct (state_eqb s s'); simpl; by rewrite IH.
Qed.

(** X3. [makeDaemon] leaves the lifecycle alone, whatever its outcome: it
    does not write the state, registers or calls no hook and prints
    nothing on the standard output; and its result is never empty, it is
    [true] or [false]. *)
Theorem makeDaemon_keeps_the_lifecycle (pidFileName : string) (m : Machine) :
  let r := fst (makeDaemon pidFileName m) in
  let m' := snd (makeDaemon pidFileName m) in
  (r = Some true \/ r = Some false)
  /\ m_State (dmn m') = m_State (dmn m)
  /\ (forall h, handler_of h (dmn m') = handler_of h (dmn m))
  /\ (forall s, assigns s (trace m') = assigns s (trace m))
  /\ List.filter is_invoke (trace m') = List.filter is_invoke (trace m)
  /\ e_cout (env m') = e_cout (env m).
Proof.
  intros r m'. subst r m'. rewrite makeDaemon_eq.
  assert (Hquiet : forall evs,
            forallb (fun ev => negb (is_invoke ev)) evs = true ->
            List.filter is_invoke (trace m ++ evs)
            = List.filter is_invoke (trace m))
    by (intros evs; apply filter_quiet).
  destruct (m_IsInitialized (dmn m)); simpl.
  { repeat split; auto. }
  destruct (e_detach (env m) (e_detach_calls (env m))) as [child|err]; simpl;
    [destruct (String.eqb pidFileName ""); simpl;
     [|destruct (e_openable (env m) (resolve "/" pidFileName)); simpl]|];
    (split; [by auto|]); (split; [done|]);
    (split; [by intros []|]);
    (split; [intros s; rewrite assigns_app; simpl; lia|]);
    (split; [by apply Hquiet|done]).
Qed.

(** X4. What a failed first call leaves behind. When the detach itself
    fails the process is where it was (same id, same directory), with
    the error number set and one line on the standard error. When the
    PID file cannot be opened the detach has already happened: the call
    returns [false] in the detached process, moved to the root directory,
    and the line on the standard error names the file. In both cases no
    file is created or changed and [m_Pid] keeps its value. *)
Theorem makeDaemon_failure_effects (pidFileName : string) (m : Machine) :
  m_IsInitialized (dmn m) = false ->
  let m' := snd (makeDaemon pidFileName m) in
  (forall err,
      e_detach (env m) (e_detach_calls (env m)) = DetachFail err ->
      e_pid (env m') = e_pid (env m)
      /\ e_cwd (env m') = e_cwd (env m)
      /\ e_errno (env m') = err
      /\ (e_stdio_null (env m) = false ->
          e_cerr (env m')
          = e_cerr (env m)
              ++ ["Failed demonizing: " +:+ e_strerror (env m) err])
      /\ e_files (env m') = e_files (env m)
      /\ m_Pid (dmn m') = m_Pid (dmn m))
  /\ (forall child,
        e_detach (env m) (e_detach_calls (env m)) = DetachOk child ->
        pidFileName <> "" ->
        e_openable (env m) (resolve "/" pidFileName) = false ->
        e_pid (env m') = child
        /\ e_cwd (env m') = "/"
        /\ (e_stdio_null (env m) = false ->
            e_cerr (env m')
            = e_cerr (env m) ++ ["Failed to open " +:+ pidFileName])
        /\ e_files (env m') = e_files (env m)
        /\ m_Pid (dmn m') = m_Pid (dmn m)).
Proof.
  intros Hi m'. subst m'. split.
  - intros err Hd. rewrite (makeDaemon_detach_fails _ _ _ Hi Hd). simpl.
    repeat split. intros ->. reflexivity.
  - intros child Hd Hn Ho. rewrite (makeDaemon_open_fails _ _ _ Hi Hd Hn Ho).
    simpl. repeat split. intros ->. reflexivity.
Qed.

Lemma makeDaemon_failure_effects_witness :
  m_IsInitialized (dmn (new_Machine sample_env)) = false
  /\ e_pid (env (snd (makeDaemon "/proc/test.pid" (new_Machine sample_env))))
     = 4243
  /\ e_cerr (env (snd (makeDaemon "/proc/test.pid" (new_Machine sample_env))))
     = ["Failed to open /proc/test.pid"]
  /\ e_pid (env (snd (makeDaemon "test.pid" (new_Machine failing_env))))
     = 4242.
Proof.
  split; [reflexivity|].
  assert (Hname : "/proc/test.pid" <> "") by discriminate.
  pose proof (makeDaemon_failure_effects "/proc/test.pid"
                (new_Machine sample_env) eq_refl) as [_ Hopen].
  pose proof (makeDaemon_failure_effects "test.pid"
                (new_Machine failing_env) eq_refl) as [Hdetach _].
  destruct (Hopen 4243 eq_refl Hname eq_refl) as (Hpid & _ & Hcerr & _).
  destruct (Hdetach 11 eq_refl) as (Hpid' & _).
  split; [exact Hpid|]. split; [exact (Hcerr eq_refl)|]. exact Hpid'.
Defined.

(** X5. A relative name of the PID file is taken from the root directory,
    where the detach has moved the process: the one path the call opens
    is the name behind a slash, whatever directory the host was started
    in, and the call succeeds exactly when that path can be opened; then
    this path is the one written, with the id of the detached process. *)
Theorem relative_pid_file_lands_in_root (pidFileName : string) (m : Machine)
    (child : Z) :
  m_IsInitialized (dmn m) = false ->
  e_detach (env m) (e_detach_calls (env m)) = DetachOk child ->
  pidFileName <> "" ->
  is_absolute pidFileName = false ->
  let path := "/" +:+ pidFileName in
  let opened := e_openable (env m) path in
  let m' := snd (makeDaemon pidFileName m) in
  fst (makeDaemon pidFileName m) = Some opened
  /\ e_cwd (env m') = "/"
  /\ trace m' = trace m ++ EvDetach (DetachOk child) :: EvOpen path opened
                   :: (if opened then [EvWrite path (to_string child)]
                       else [])
  /\ (opened = true ->
      e_files (env m') !! path = Some (to_string child)).
Proof.
  intros Hi Hd Hn Hrel path opened m'. subst m'.
  assert (Hres : resolve "/" pidFileName = path)
    by (unfold resolve; by rewrite Hrel).
  destruct opened eqn:Ho; subst opened; rewrite <- Hres in Ho.
  - rewrite (makeDaemon_writes _ _ _ Hi Hd Hn Ho). simpl. rewrite Hres.
    repeat split. intros _. apply lookup_insert_eq.
  - rewrite (makeDaemon_open_fails _ _ _ Hi Hd Hn Ho). simpl. rewrite Hres.
    by repeat split.
Qed.

Lemma relative_pid_file_lands_in_root_witness :
  e_cwd (env (new_Machine sample_env)) = "/home/user"
  /\ trace (snd (makeDaemon "daemon.pid" (new_Machine sample_env)))
     = [EvDetach (DetachOk 4243); EvOpen "/daemon.pid" true;
        EvWrite "/daemon.pid" "4243"]
  /\ e_files (env (snd (makeDaemon "daemon.pid" (new_Machine sample_env))))
       !! "/daemon.pid" = Some "4243".
Proof.
  split; [reflexivity|].
  assert (Hname : "daemon.pid" <> "") by discriminate.
  destruct (relative_pid_file_lands_in_root "daemon.pid"
              (new_Machine sample_env) 4243 eq_refl eq_refl Hname eq_refl)
    as (_ & _ & Htrace & Hfile).
  split; [exact Htrace|]. by apply Hfile.
Defined.

(** ** Invariants of every run *)

(** A use of the interface other than [makeDaemon] keeps the guard and
    neither detaches nor touches a file. *)
Lemma exec_calm `{Signals} (c : Call) (m : Machine) :
  (forall name, c <> CmakeDaemon name) ->
  m_IsInitialized (dmn (snd (exec c m))) = m_IsInitialized (dmn m)
  /\ exists evs, trace (snd (exec c m)) = trace m ++ evs /\ calm evs = true.
Proof.
  intros Hc. destruct c; unfold exec.
  - unfold discard, bind. rewrite startAll_eq. simpl. split; [done|].
    eexists; split; [reflexivity|].
    by destruct (m_HandlerBeforeToStart (dmn m)).
  - unfold discard, bind. rewrite reloadAll_eq. simpl. split; [done|].
    by eexists.
  - unfold discard, bind. rewrite closeAll_eq. simpl. split; [done|].
    eexists; split; [reflexivity|].
    by destruct (m_HandlerBeforeToExit (dmn m)).
  - destruct h; (split; [done|]); exists []; by rewrite app_nil_r.
  - unfold discard, bind. rewrite isRunning_eq.
    destruct (hook_of_state (m_State (dmn m))) as [h|]; simpl.
    + split; [done|]. eexists; split; [reflexivity|].
      destruct (handler_of h (dmn m)); simpl; [|done].
      unfold demoted. by destruct (optional_eq _ _).
    + split; [done|]. exists []; by rewrite app_nil_r.
  - split; [done|]. exists []; simpl; by rewrite app_nil_r.
  - unfold setState; unfold_m; simpl. split; [done|]. by eexists.
  - by destruct (Hc pidFileName).
  - rewrite signalHandler_eq. simpl. split.
    + by destruct (state_of_signal signal).
    + eexists; split; [reflexivity|]. by destruct (state_of_signal signal).
Qed.

Lemma detaches_calm (tr evs : list Event) :
  calm evs = true -> detaches (tr ++ evs) = detaches tr.
Proof.
  intros Hq. unfold detaches. rewrite calm_filter; [done| |done].
  intros ev Hev. unfold is_os_access. by rewrite Hev.
Qed.

(** The detach attempts made and the one still possible never grow. *)
Lemma exec_detach_budget `{Signals} (c : Call) (m : Machine) :
  (detaches (trace (snd (exec c m)))
   + (if m_IsInitialized (dmn (snd (exec c m))) then 0 else 1)
   <= detaches (trace m) + (if m_IsInitialized (dmn m) then 0 else 1))%nat.
Proof.
  destruct c;
    try (match goal with
         | |- context [exec ?c m] =>
             assert (Hc : forall name, c <> CmakeDaemon name) by discriminate;
             destruct (exec_calm c m Hc) as (-> & evs & -> & Hq)
         end;
         rewrite (detaches_calm _ _ Hq); lia).
  unfold exec, discard, bind. rewrite makeDaemon_eq.
  destruct (m_IsInitialized (dmn m)) eqn:Hi; simpl; [rewrite Hi; lia|].
  unfold detaches.
  destruct (e_detach (env m) (e_detach_calls (env m))) as [child|err]; simpl;
    [destruct (String.eqb pidFileName ""); simpl;
     [|destruct (e_openable (env m) (resolve "/" pidFileName)); simpl]|];
    rewrite List.filter_app, length_app; simpl; lia.
Qed.

(** X6. Whatever a host does with the controller, in any order and with
    any signals in between, the process is detached at most once:
    a run adds at most one detach attempt, and none once [makeDaemon] has
    been called. *)
Theorem detach_at_most_once `{Signals} (cs : list Call) (m : Machine) :
  (detaches (trace (run cs m))
   <= detaches (trace m) + (if m_IsInitialized (dmn m) then 0 else 1))%nat.
Proof.
  revert m. induction cs as [|c cs IH]; intros m; simpl; [lia|].
  pose proof (IH (snd (exec c m))) as Hrest.
  pose proof (exec_detach_budget c m) as Hstep.
  destruct (m_IsInitialized (dmn (snd (exec c m)))); lia.
Qed.

(** [makeDaemon] writes no state and calls no hook. *)
Lemma makeDaemon_frame (pidFileName : string) (m : Machine) :
  m_State (dmn (snd (makeDaemon pidFileName m))) = m_State (dmn m)
  /\ (forall s, assigns s (trace (snd (makeDaemon pidFileName m)))
                = assigns s (trace m))
  /\ (forall h, invocations h (trace (snd (makeDaemon pidFileName m)))
                = invocations h (trace m)).
Proof.
  rewrite makeDaemon_eq.
  destruct (m_IsInitialized (dmn m)); simpl; [done|].
  destruct (e_detach (env m) (e_detach_calls (env m))) as [child|err]; simpl;
    [destruct (String.eqb pidFileName ""); simpl;
     [|destruct (e_openable (env m) (resolve "/" pidFileName)); simpl]|];
    (split; [done|]);
    (split; [intros s; rewrite assigns_app; simpl; lia|]);
    intros h; rewrite invocations_app; destruct h; simpl; lia.
Qed.

(** The calls of a hook and a request that still stands never exceed the
    requests written: one use of the interface keeps that. *)
Lemma exec_owed `{Signals} (c : Call) (m : Machine) (s : State) (h : Hook) :
  hook_of_state s = Some h ->
  (invocations h (trace m) + pending s m <= assigns s (trace m))%nat ->
  (invocations h (trace (snd (exec c m))) + pending s (snd (exec c m))
   <= assigns s (trace (snd (exec c m))))%nat.
Proof.
  intros Hh Hm. unfold pending in *. destruct c; unfold exec.
  - unfold discard, bind. rewrite startAll_eq. simpl.
    rewrite invocations_app, assigns_app.
    destruct s; try discriminate Hh; injection Hh as <-;
      destruct (m_State (dmn m)), (m_HandlerBeforeToStart (dmn m));
      simpl in *; lia.
  - unfold discard, bind. rewrite reloadAll_eq. simpl.
    rewrite invocations_app, assigns_app.
    destruct s; try discriminate Hh; injection Hh as <-;
      destruct (m_State (dmn m)); simpl in *; lia.
  - unfold discard, bind. rewrite closeAll_eq. simpl.
    rewrite invocations_app, assigns_app.
    destruct s; try discriminate Hh; injection Hh as <-;
      destruct (m_State (dmn m)), (m_HandlerBeforeToExit (dmn m));
      simpl in *; lia.
  - by destruct h0.
  - unfold discard, bind. rewrite isRunning_eq.
    destruct s; try discriminate Hh; injection Hh as <-;
      destruct (m_State (dmn m)) eqn:Hs; simpl in *; rewrite ?Hs; simpl;
      try lia;
      unfold settled, demoted;
      rewrite invocations_app, assigns_app; simpl;
      rewrite ?invocations_app, ?assigns_app;
      match goal with
      | |- context [invoked _ ?f _] =>
          destruct f as [cb|]; simpl;
          [destruct (optional_eq (fst (cb (env m))) false); simpl|]
      end; lia.
  - exact Hm.
  - unfold setState; unfold_m; simpl. rewrite invocations_app, assigns_app.
    destruct s; try discriminate Hh; injection Hh as <-;
      destruct (m_State (dmn m)), state; simpl in *; lia.
  - unfold discard, bind.
    destruct (makeDaemon_frame pidFileName m) as (Hst & Has & Hin).
    destruct (makeDaemon pidFileName m) as [r m']. simpl in *.
    by rewrite Hst, Has, Hin.
  - rewrite signalHandler_eq. simpl. rewrite invocations_app, assigns_app.
    destruct s; try discriminate Hh; injection Hh as <-;
      destruct (state_of_signal signal) as [[]|]; simpl;
      destruct (m_State (dmn m)); simpl in *; lia.
Qed.

(** X7. Over any use of the controller each request for a reload or a
    user action is served at most once: the calls of the hook, plus one
    if a request still stands, never exceed the times the transient state
    was written (by a signal, by [reloadAll] or by [setState]). *)
Theorem requests_served_at_most_once `{Signals} (cs : list Call)
    (m : Machine) (s : State) (h : Hook) :
  hook_of_state s = Some h ->
  (invocations h (trace m) + pending s m <= assigns s (trace m))%nat ->
  (invocations h (trace (run cs m)) + pending s (run cs m)
   <= assigns s (trace (run cs m)))%nat.
Proof.
  intros Hh. revert m. induction cs as [|c cs IH]; intros m Hm; simpl;
    [exact Hm|].
  apply IH. by apply exec_owed.
Qed.

Lemma requests_served_at_most_once_witness :
  hook_of_state Reload = Some HReload
  /\ (invocations HReload (trace (run simple_session (new_Machine sample_env)))
      + pending Reload (run simple_session (new_Machine sample_env))
      <= assigns Reload (trace (run simple_session (new_Machine sample_env))))%nat.
Proof.
  split; [reflexivity|].
  apply (requests_served_at_most_once simple_session
           (new_Machine sample_env) Reload HReload eq_refl).
  unfold pending. simpl. lia.
Defined.

(** * Further properties of the periodic worker *)

Lemma timeouts_app (tr1 tr2 : list TaskEv) :
  timeouts (tr1 ++ tr2) = timeouts tr1 ++ timeouts tr2.
Proof.
  induction tr1 as [|ev tr1 IH]; simpl; [done|].
  destruct ev; simpl; by rewrite ?IH.
Qed.

Lemma checks_app (tr1 tr2 : list TaskEv) :
  checks (tr1 ++ tr2) = checks tr1 ++ checks tr2.
Proof.
  induction tr1 as [|ev tr1 IH]; simpl; [done|].
  destruct ev; simpl; by rewrite ?IH.
Qed.

Lemma serves_app (tr1 tr2 : list TaskEv) :
  serves (tr1 ++ tr2) = (serves tr1 + serves tr2)%nat.
Proof.
  induction tr1 as [|ev tr1 IH]; simpl; [done|].
  destruct ev; simpl; by rewrite ?IH.
Qed.

Section WorkerRounds.
Context {H : Type}.
Variable serveFunction : Z -> H -> Z * H.
Variable interfere : nat -> Phase -> Shared -> Shared.
Variable zeroDuration : Z.

(** What one round adds to the trace: one serve call, at most one wait,
    whose timeout is the positive result of that call. *)
Lemma serve_and_wait_events (k : nat) (sooner : Z) (w : Worker H) :
  exists evs,
    w_trace (snd (serve_and_wait serveFunction interfere zeroDuration
                    k sooner w))
    = w_trace w ++ evs
    /\ serves evs = 1%nat
    /\ checks evs = []
    /\ Forall (fun d => 0 < d
                /\ d = fst (serveFunction sooner (w_host w)))
         (timeouts evs).
Proof.
  unfold serve_and_wait.
  destruct (serveFunction sooner (w_host w)) as [sooner' h]. simpl.
  destruct (Z.gtb_spec sooner' 0) as [Hpos|Hle]; simpl.
  - exists [TServe sooner sooner'; TWait sooner' (notifications
        (interfere k Serving (w_shared w))
      <? notifications (interfere k Waiting
                          (interfere k Serving (w_shared w))))%nat].
    rewrite <- app_assoc. simpl. repeat split. repeat constructor; lia.
  - exists [TServe sooner sooner']. repeat split. constructor.
Qed.

(** The rounds of a finished loop: as many serve calls as tests of the
    token, every test but the last one negative, and only positive
    timeouts, each one a result of the serve function. *)
Lemma task_loop_events (fuel : nat) :
  forall (k : nat) (sooner : Z) (w w' : Worker H),
    task_loop serveFunction interfere zeroDuration fuel k sooner w
    = Some w' ->
    exists evs n,
      w_trace w' = w_trace w ++ evs
      /\ serves evs = S n
      /\ checks evs = repeat false n ++ [true]
      /\ Forall (fun d => 0 < d /\ exists a h, d = fst (serveFunction a h))
           (timeouts evs).
Proof.
  induction fuel as [|fuel IH]; intros k sooner w w' Hrun; [done|].
  simpl in Hrun.
  destruct (serve_and_wait_events k sooner w) as (evs & Htr & Hs & Hc & Ht).
  destruct (serve_and_wait serveFunction interfere zeroDuration k sooner w)
    as [sooner1 w1]. simpl in *.
  assert (Ht' : Forall (fun d => 0 < d
                          /\ exists a h, d = fst (serveFunction a h))
                  (timeouts evs)).
  { eapply Forall_impl; [exact Ht|]. intros d [Hd Heq]. eauto. }
  destruct (stop_flag (w_shared w1)) eqn:Hstop.
  - injection Hrun as <-. exists (evs ++ [TCheck true]), 0%nat. simpl.
    rewrite Htr, <- app_assoc, serves_app, checks_app, timeouts_app. simpl.
    rewrite Hs, Hc, app_nil_r. repeat split. exact Ht'.
  - destruct (IH _ _ _ _ Hrun) as (evs' & n & Htr' & Hs' & Hc' & Hf').
    simpl in Htr'.
    exists (evs ++ TCheck false :: evs'), (S n).
    rewrite Htr', Htr, <- !app_assoc. simpl.
    rewrite serves_app, checks_app, timeouts_app. simpl.
    rewrite Hs, Hc, Hs', Hc'. repeat split.
    apply Forall_app. by split.
Qed.

End WorkerRounds.


(** X9. The worker of the task example ([1000ms], [1ms] and the serve
    function of its [main]): whatever the other threads do and however
    long it runs, every wait has a timeout between 1 and 4999
    milliseconds. *)
Theorem example_waits_below_five_seconds
    (interfere : nat -> Phase -> Shared -> Shared) (fuel : nat)
    (w w' : Worker unit) :
  runTask example_serve interfere 1000 1 fuel w = Some w' ->
  exists evs,
    w_trace w' = w_trace w ++ evs
    /\ Forall (fun d => 1 <= d <= 4999) (timeouts evs).
Proof.
  unfold runTask. intros Hrun.
  destruct (task_loop_events _ _ _ fuel _ _ _ _ Hrun)
    as (evs & n & Htr & _ & _ & Ht).
  exists evs. split; [exact Htr|].
  eapply Forall_impl; [exact Ht|].
  intros d (Hpos & a & h & ->). unfold example_serve in *. simpl in *.
  destruct (Z.geb_spec a 4000); lia.
Qed.

Lemma example_waits_below_five_seconds_witness :
  runTask example_serve (stop_during_wait 1) 1000 1 2 new_Worker
  = Some {| w_host := tt;
            w_shared := {| stop_flag := true; stop_callbacks := [];
                           next_registration := 1; notifications := 0 |};
            w_trace := [TServe 1000 2000; TWait 2000 false; TCheck false;
                        TServe 2000 3000; TWait 3000 false; TCheck true] |}
  /\ exists evs,
       [TServe 1000 2000; TWait 2000 false; TCheck false;
        TServe 2000 3000; TWait 3000 false; TCheck true] = [] ++ evs
       /\ Forall (fun d => 1 <= d <= 4999) (timeouts evs).
Proof.
  assert (Hrun :
    runTask example_serve (stop_during_wait 1) 1000 1 2 new_Worker
    = Some {| w_host := tt;
              w_shared := {| stop_flag := true; stop_callbacks := [];
                             next_registration := 1; notifications := 0 |};
              w_trace := [TServe 1000 2000; TWait 2000 false; TCheck false;
                          TServe 2000 3000; TWait 3000 false;
                          TCheck true] |}) by reflexivity.
  split; [exact Hrun|].
  exact (example_waits_below_five_seconds _ _ _ _ Hrun).
Defined.

(** X10. A worker started when the stop is already requested still does
    one round: the observer runs at once, inside [registerStopCallback]
    and so before any wait; the serve function is called once; a positive
    result is waited for, and that wait is ended early only if somebody
    notifies the event meanwhile; then the token is tested and the worker
    leaves. *)
Theorem runTask_started_after_stop {H : Type}
    (serveFunction : Z -> H -> Z * H)
    (interfere : nat -> Phase -> Shared -> Shared)
    (defDuration zeroDuration : Z) (fuel : nat) (w : Worker H) :
  (forall (j : nat) (p : Phase) (s : Shared),
      stop_flag s = true -> stop_flag (interfere j p s) = true) ->
  stop_flag (w_shared w) = true ->
  let d := fst (serveFunction defDuration (w_host w)) in
  let s1 := interfere 0%nat Serving (notify_all (w_shared w)) in
  exists w',
    runTask serveFunction interfere defDuration zeroDuration (S fuel) w
    = Some w'
    /\ w_trace w'
       = w_trace w ++ TServe defDuration d
           :: (if d >? 0
               then [TWait d (notifications s1
                              <? notifications (interfere 0%nat Waiting s1))%nat]
               else [])
           ++ [TCheck true]
    /\ notifications (w_shared (enrolled w))
       = S (notifications (w_shared w)).
Proof.
  intros Hkeep Hstop d s1.
  assert (Hreg : registerStopCallback (w_shared w) = notify_all (w_shared w))
    by (by apply registerStopCallback_stopped).
  eexists. split.
  - unfold runTask.
    apply (task_loop_stops_when_requested serveFunction interfere
             zeroDuration 0%nat defDuration); [exact Hkeep|].
    simpl. rewrite Hreg. exact Hstop.
  - split; [|simpl; by rewrite Hreg].
    unfold observe_token, serve_and_wait. simpl. rewrite Hreg.
    subst d s1.
    destruct (serveFunction defDuration (w_host w)) as [sooner' h]. simpl.
    destruct (sooner' >? 0); simpl.
    + rewrite Hkeep; [by rewrite <- !app_assoc|].
      apply Hkeep. exact Hstop.
    + rewrite Hkeep; [by rewrite <- !app_assoc|]. exact Hstop.
Qed.

Lemma runTask_started_after_stop_witness :
  stop_flag (w_shared stopped_Worker) = true
  /\ exists w',
       runTask (steady 60000) quiet 60000 1 1 stopped_Worker = Some w'
       /\ w_trace w' = [TServe 60000 60000; TWait 60000 false; TCheck true].
Proof.
  split; [reflexivity|].
  destruct (runTask_started_after_stop (steady 60000) quiet 60000 1 0
              stopped_Worker (fun _ _ _ Hs => Hs) eq_refl)
    as (w' & Hrun & Htr & _).
  exists w'. split; [exact Hrun|exact Htr].
Defined.

(** ** The stop state *)

Lemma well_numbered_next (s : Shared) (cbs : list (nat * Action)) :
  Forall (fun c => (fst c < next_registration s)%nat) cbs ->
  Forall (fun c => (fst c < S (next_registration s))%nat) cbs.
Proof. intros Hall. eapply Forall_impl; [exact Hall|]. simpl. lia. Qed.

(** X11. [registerStopCallback] leaves the stop state as it found it, but
    for a registration number: the observers registered before are all
    still there and its own is not. If the stop was requested before, it
    notifies the event once, at once; if not, it notifies nothing, and a
    later stop request notifies exactly what it would have notified had
    [registerStopCallback] never been called. *)
Theorem registerStopCallback_registers_nothing (s : Shared) :
  well_numbered s ->
  stop_flag (registerStopCallback s) = stop_flag s
  /\ stop_callbacks (registerStopCallback s) = stop_callbacks s
  /\ well_numbered (registerStopCallback s)
  /\ notifications (registerStopCallback s)
     = (notifications s + if stop_flag s then 1 else 0)%nat
  /\ notifications (snd (request_stop (registerStopCallback s)))
     = (notifications (snd (request_stop s))
        + if stop_flag s then 1 else 0)%nat.
Proof.
  intros Hw. destruct (stop_flag s) eqn:Hf.
  - rewrite (registerStopCallback_stopped s Hf).
    unfold request_stop, notify_all. simpl. rewrite Hf. simpl.
    repeat split; try done; lia.
  - rewrite (registerStopCallback_pending s Hf Hw).
    unfold request_stop. simpl. rewrite Hf.
    split; [done|]. split; [done|].
    split; [by apply well_numbered_next|]. split; [lia|].
    rewrite Nat.add_0_r.
    assert (Hgen : forall (cbs : list (nat * Action)) (a b : Shared),
              notifications a = notifications b ->
              notifications
                (fold_left (fun acc c => perform (snd c) acc) cbs a)
              = notifications
                  (fold_left (fun acc c => perform (snd c) acc) cbs b)).
    { induction cbs as [|c cbs IH]; intros a b Hab; simpl; [done|].
      apply IH. destruct (snd c). simpl. by rewrite Hab. }
    by apply Hgen.
Qed.

Lemma registerStopCallback_registers_nothing_witness :
  well_numbered new_Shared
  /\ stop_callbacks (registerStopCallback new_Shared) = []
  /\ notifications (snd (request_stop (registerStopCallback new_Shared)))
     = 0%nat.
Proof.
  assert (Hw : well_numbered new_Shared) by constructor.
  split; [exact Hw|].
  destruct (registerStopCallback_registers_nothing new_Shared Hw)
    as (_ & Hcbs & _ & _ & Hnot).
  split; [exact Hcbs|exact Hnot].
Defined.

(** * Properties of the hosts *)

(** ** Reading the options: [daemon_simple] *)

(** One answer of [getopt_long] after which the parser goes on. *)
Lemma simple_parse_step (verString prog : string) (var : Z) (optarg : string)
    (results : list (Z * string)) (config0 config : DaemonConfig)
    (e e' : Env) :
  var ∈ getopt_values DaemonSimple.short_options DaemonSimple.long_options ->
  DaemonSimple.process_command_line verString prog
    ((var, optarg) :: results) config0 e = (Continue config, e') ->
  exists config1 e1,
    DaemonSimple.process_command_line verString prog results config1 e1
    = (Continue config, e')
    /\ ((var = 0 /\ config1 = config0)
        \/ (var = chr "D" /\ config1 = set_mode true false config0)
        \/ (var = chr "P" /\ optarg <> ""
            /\ config1 = set_pidFile optarg config0)
        \/ (var = chr "S" /\ optarg <> ""
            /\ config1 = set_pathConfigFolder optarg config0)
        \/ (var = chr "x" /\ optarg <> ""
            /\ config1 = set_pathConfigFile optarg config0)).
Proof.
  intros Hvar Hrun.
  let l := eval vm_compute in
    (getopt_values DaemonSimple.short_options DaemonSimple.long_options) in
  change (getopt_values DaemonSimple.short_options DaemonSimple.long_options)
    with l in Hvar.
  rewrite !elem_of_cons, elem_of_nil in Hvar.
  repeat (destruct Hvar as [->|Hvar]);
    try (destruct Hvar);
    try (simpl in Hrun; discriminate Hrun);
    simpl in Hrun;
    try (destruct (String.eqb_spec optarg "") as [->|Hn];
         simpl in Hrun; [discriminate Hrun|]);
    eexists _, _; (split; [exact Hrun|]); tauto.
Qed.

Lemma simple_parse_continues (verString prog : string)
    (results : list (Z * string)) :
  conform DaemonSimple.short_options DaemonSimple.long_options results ->
  forall (config0 config : DaemonConfig) (e e' : Env),
  DaemonSimple.process_command_line verString prog results config0 e
  = (Continue config, e') ->
  Forall (fun r => fst r ∈ [0; chr "D"; chr "P"; chr "S"; chr "x"]
                   /\ (fst r ∈ [chr "P"; chr "S"; chr "x"] -> snd r <> ""))
    results
  /\ hasTestConsole config
     = (hasTestConsole config0 && negb (given (chr "D") results))%bool
  /\ isDaemon config = (isDaemon config0 || given (chr "D") results)%bool
  /\ pidFile config = last_argument (chr "P") results (pidFile config0)
  /\ pathConfigFolder config
     = last_argument (chr "S") results (pathConfigFolder config0)
  /\ pathConfigFile config
     = last_argument (chr "x") results (pathConfigFile config0).
Proof.
  induction 1 as [|[var optarg] results Hvar Hrest IH];
    intros config0 config e e' Hrun.
  - injection Hrun as <- <-. simpl.
    rewrite andb_true_r, orb_false_r. by repeat split.
  - simpl in Hvar.
    destruct (simple_parse_step _ _ _ _ _ _ _ _ _ Hvar Hrun)
      as (config1 & e1 & Hrun1 & Hcase).
    destruct (IH _ _ _ _ Hrun1) as (Hall & Hc & Hd & Hp & Hs & Hx).
    rewrite Hc, Hd, Hp, Hs, Hx.
    unfold last_argument, given. simpl.
    split.
    + constructor; [|exact Hall]. simpl.
      rewrite !elem_of_cons, !elem_of_nil.
      destruct Hcase as [[-> _]|[[-> _]|[(-> & Hn & _)|[(-> & Hn & _)
                                                      |(-> & Hn & _)]]]];
        (split; [tauto|]); try (intros _; exact Hn);
        vm_compute; intuition discriminate.
    + destruct Hcase as [[-> ->]|[[-> ->]|[(-> & _ & ->)|[(-> & _ & ->)
                                                        |(-> & _ & ->)]]]];
        simpl; rewrite ?andb_false_r, ?orb_true_r; by repeat split.
Qed.


(** X12. The simple host cannot be put into test-console mode: whenever
    [getopt_long] answers within its option tables and the parser returns
    to [main], the console flag is off and every answer was one of
    [--help], [-D], [-P], [-S], [-x]. The advertised [-T] is no case of
    the switch and ends the program with the failure status. *)
Theorem simple_host_test_console_is_unreachable (verString prog : string)
    (results : list (Z * string)) (config : DaemonConfig) (e e' : Env) :
  conform DaemonSimple.short_options DaemonSimple.long_options results ->
  DaemonSimple.process_command_line verString prog results
    new_DaemonConfig e = (Continue config, e') ->
  hasTestConsole config = false
  /\ Forall (fun r => fst r ∈ [0; chr "D"; chr "P"; chr "S"; chr "x"]) results
  /\ forall (optarg : string) (rest : list (Z * string))
       (config0 : DaemonConfig) (e0 : Env),
       fst (DaemonSimple.process_command_line verString prog
              ((chr "T", optarg) :: rest) config0 e0) = Exit EXIT_FAILURE.
Proof.
  intros Hconform Hrun.
  destruct (simple_parse_continues _ _ _ Hconform _ _ _ _ Hrun)
    as (Hall & Hc & _).
  split; [by rewrite Hc|]. split; [|reflexivity].
  eapply Forall_impl; [exact Hall|]. simpl. tauto.
Qed.

Lemma simple_host_test_console_is_unreachable_witness :
  conform DaemonSimple.short_options DaemonSimple.long_options
    [(chr "D", ""); (chr "P", "/run/d.pid")]
  /\ hasTestConsole (set_pidFile "/run/d.pid"
                       (set_mode true false new_DaemonConfig)) = false.
Proof.
  assert (Hconform :
    conform DaemonSimple.short_options DaemonSimple.long_options
      [(chr "D", ""); (chr "P", "/run/d.pid")]).
  { repeat constructor; apply elem_of_list_In; vm_compute; tauto. }
  split; [exact Hconform|].
  exact (proj1 (simple_host_test_console_is_unreachable "1.0" "daemon"
                  _ _ sample_env _ Hconform eq_refl)).
Defined.

(** X13. What the parser of the simple host hands to [main]: the daemon
    flag is set exactly when [-D] was given, each of the three paths is
    the argument of the last option that names it (empty without one),
    and no accepted path argument is empty - an empty one ends the
    program instead. *)
Theorem simple_host_parsed_configuration (verString prog : string)
    (results : list (Z * string)) (config : DaemonConfig) (e e' : Env) :
  conform DaemonSimple.short_options DaemonSimple.long_options results ->
  DaemonSimple.process_command_line verString prog results
    new_DaemonConfig e = (Continue config, e') ->
  isDaemon config = given (chr "D") results
  /\ pidFile config = last_argument (chr "P") results ""
  /\ pathConfigFolder config = last_argument (chr "S") results ""
  /\ pathConfigFile config = last_argument (chr "x") results ""
  /\ Forall (fun r => fst r ∈ [chr "P"; chr "S"; chr "x"] -> snd r <> "")
       results.
Proof.
  intros Hconform Hrun.
  destruct (simple_parse_continues _ _ _ Hconform _ _ _ _ Hrun)
    as (Hall & _ & Hd & Hp & Hs & Hx).
  repeat split; try done.
  eapply Forall_impl; [exact Hall|]. simpl. tauto.
Qed.

Lemma simple_host_parsed_configuration_witness :
  conform DaemonSimple.short_options DaemonSimple.long_options
    [(chr "P", "a.pid"); (chr "D", ""); (chr "P", "/run/d.pid")]
  /\ pidFile (set_pidFile "/run/d.pid"
                (set_mode true false
                   (set_pidFile "a.pid" new_DaemonConfig)))
     = "/run/d.pid".
Proof.
  assert (Hconform :
    conform DaemonSimple.short_options DaemonSimple.long_options
      [(chr "P", "a.pid"); (chr "D", ""); (chr "P", "/run/d.pid")]).
  { repeat constructor; apply elem_of_list_In; vm_compute; tauto. }
  split; [exact Hconform|].
  exact (proj1 (proj2 (simple_host_parsed_configuration "1.0" "daemon"
                         _ _ sample_env _ Hconform eq_refl))).
Defined.

(** The parser looks at the answers only, never at the process. *)
Lemma simple_parse_env_blind (verString prog : string)
    (results : list (Z * string)) :
  forall (config : DaemonConfig) (e1 e2 : Env),
  fst (DaemonSimple.process_command_line verString prog results config e1)
  = fst (DaemonSimple.process_command_line verString prog results config e2).
Proof.
  induction results as [|[var optarg] results IH]; intros config e1 e2;
    [reflexivity|].
  simpl.
  repeat match goal with
         | |- context [?a =? ?b] =>
             destruct (Z.eqb_spec a b) as [->|?]; simpl
         end; try reflexivity; try apply IH;
    destruct (String.eqb_spec optarg ""); simpl; try reflexivity; apply IH.
Qed.

(** X14. The long option [--help] prints the usage text and parsing goes
    on, with the same outcome as if the option had not been given; the
    short [-h] prints the same text and ends the program with the
    success status. *)
Theorem simple_host_long_help_goes_on (verString prog optarg : string)
    (rest : list (Z * string)) (config : DaemonConfig) (e : Env) :
  fst (DaemonSimple.process_command_line verString prog
         ((0, optarg) :: rest) config e)
  = fst (DaemonSimple.process_command_line verString prog rest config e)
  /\ snd (DaemonSimple.process_command_line verString prog
            ((0, optarg) :: rest) config e)
     = snd (DaemonSimple.process_command_line verString prog rest config
              (snd (DaemonSimple.display_help prog 0 e)))
  /\ DaemonSimple.process_command_line verString prog
       ((chr "h", optarg) :: rest) config e
     = (Exit EXIT_SUCCESS, snd (DaemonSimple.display_help prog 0 e)).
Proof.
  split; [|split; reflexivity].
  simpl. apply simple_parse_env_blind.
Qed.

(** ** The main loop of [daemon_simple] *)

Lemma invocations_filter (h : Hook) (tr : list Event) :
  invocations h (List.filter is_invoke tr) = invocations h tr.
Proof.
  induction tr as [|ev tr IH]; [done|].
  destruct ev; simpl; try exact IH.
  destruct h, h0; simpl; by rewrite ?IH.
Qed.

Lemma deliver_quiet `{Signals} (sigs : list Z) (m : Machine) (h : Hook) :
  handler_of h (dmn (deliver sigs m)) = handler_of h (dmn m)
  /\ invocations h (trace (deliver sigs m)) = invocations h (trace m).
Proof.
  destruct (deliver_frame sigs m) as [Hd Htr]. split.
  - rewrite Hd. apply handler_of_with_State.
  - by rewrite <- invocations_filter, Htr, invocations_filter.
Qed.

Lemma deliver_state `{Signals} (sigs : list Z) (m : Machine) :
  m_State (dmn (deliver sigs m))
  = default (m_State (dmn m)) (last_request sigs).
Proof.
  revert m. induction sigs as [|sig sigs IH]; intros m; [done|].
  simpl. rewrite IH.
  destruct (last_request sigs) as [s|]; simpl; [done|].
  rewrite signalHandler_eq. simpl.
  by destruct (state_of_signal sig).
Qed.


Lemma setState_frame (s : State) (m : Machine) (h : Hook) :
  handler_of h (dmn (snd (setState s m))) = handler_of h (dmn m)
  /\ invocations h (trace (snd (setState s m))) = invocations h (trace m).
Proof.
  split; [apply handler_of_with_State|].
  simpl. rewrite invocations_app. simpl. lia.
Qed.


(** [makeDaemon] as the hosts see it. *)
Lemma makeDaemon_for_hosts (pidFileName : string) (m : Machine) :
  (forall h, handler_of h (dmn (snd (makeDaemon pidFileName m)))
             = handler_of h (dmn m))
  /\ m_State (dmn (snd (makeDaemon pidFileName m))) = m_State (dmn m)
  /\ (forall h, invocations h (trace (snd (makeDaemon pidFileName m)))
                = invocations h (trace m))
  /\ (fst (makeDaemon pidFileName m) = Some true
      \/ (fst (makeDaemon pidFileName m) = Some false
          /\ (m_IsInitialized (dmn m) = true
              \/ (exists err, In (EvDetach (DetachFail err))
                                (trace (snd (makeDaemon pidFileName m))))
              \/ (exists p, In (EvOpen p false)
                              (trace (snd (makeDaemon pidFileName m))))))).
Proof.
  rewrite makeDaemon_eq.
  destruct (m_IsInitialized (dmn m)); simpl.
  { repeat split; auto. }
  destruct (e_detach (env m) (e_detach_calls (env m))) as [child|err]; simpl;
    [destruct (String.eqb pidFileName ""); simpl;
     [|destruct (e_openable (env m) (resolve "/" pidFileName)); simpl]|];
    (split; [by intros []|]); (split; [done|]);
    (split; [intros h; rewrite invocations_app; destruct h; simpl; lia|]);
    auto.
  - right. split; [done|]. right. right. eexists.
    apply in_or_app. right. simpl. tauto.
  - right. split; [done|]. right. left. eexists.
    apply in_or_app. right. simpl. tauto.
Qed.






Lemma last_request_cases `{Signals} (sigs : list Z) (s : State) :
  last_request sigs = Some s -> s <> Start /\ s <> Running.
Proof.
  induction sigs as [|sig sigs IH]; simpl; [done|].
  destruct (last_request sigs) as [s'|]; [exact IH|].
  unfold state_of_signal.
  repeat match goal with
         | |- context [if ?b then _ else _] => destruct b
         end; intros Hs; try discriminate Hs; injection Hs as <-; done.
Qed.

(** A burst without a recognised signal leaves the controller and the
    trace as they are. *)
Lemma deliver_unrecognised `{Signals} (sigs : list Z) (m : Machine) :
  last_request sigs = None ->
  dmn (deliver sigs m) = dmn m /\ trace (deliver sigs m) = trace m.
Proof.
  revert m. induction sigs as [|sig sigs IH]; intros m Hq; [done|].
  simpl in Hq. destruct (last_request sigs) as [s|] eqn:Hl; [done|].
  simpl. destruct (IH (snd (signalHandler sig m)) eq_refl) as [-> ->].
  rewrite signalHandler_eq, Hq. simpl. by rewrite app_nil_r.
Qed.

Lemma arrive_unrecognised `{Signals} (sigs : list Z) (m : Machine) :
  last_request sigs = None ->
  arrive sigs m = (tt, {| dmn := dmn m; env := env (deliver sigs m);
                          trace := trace m |}).
Proof.
  intros Hq. unfold arrive.
  destruct (deliver_unrecognised sigs m Hq) as [Hd Ht].
  destruct (deliver sigs m). simpl in *. by subst.
Qed.

(** A poll of the simple host in which no recognised signal lands. *)
Lemma isRunning_async_quiet `{Signals} (inside : Gap -> list Z)
    (m : Machine) :
  (forall g, last_request (inside g) = None) ->
  m_HandlerReload (dmn m) = Some DaemonSimple.reload_hook ->
  m_HandlerUser1 (dmn m) = None ->
  m_HandlerUser2 (dmn m) = None ->
  let b := fst (isRunning_async inside m) in
  let m' := snd (isRunning_async inside m) in
  (forall h, handler_of h (dmn m') = handler_of h (dmn m))
  /\ b = state_eqb (m_State (dmn m')) Running
  /\ m_State (dmn m')
     = (if transient (m_State (dmn m)) then Running else m_State (dmn m))
  /\ invocations HReload (trace m')
     = (invocations HReload (trace m)
        + if state_eqb (m_State (dmn m)) Reload then 1 else 0)%nat.
Proof.
  intros Hq Hr H1 H2.
  unfold isRunning_async, perform_async, bind, gets, ret, assign_State,
    modify_dmn, emit, invoke.
  destruct (m_State (dmn m)) eqn:Hs; cbn -[arrive deliver];
    repeat (rewrite ?arrive_unrecognised by apply Hq; cbn -[arrive deliver];
            rewrite ?Hs, ?Hr, ?H1, ?H2; cbn -[arrive deliver]);
    repeat split; try done; try apply handler_of_with_State;
    rewrite ?invocations_app; simpl; lia.
Qed.

(** Either no recognised signal lands inside the first [n] polls, or one
    does. *)
Lemma polls_quiet_or_not `{Signals} (inside : nat -> Gap -> list Z)
    (n : nat) :
  (forall k g, (k < n)%nat -> last_request (inside k g) = None)
  \/ (exists k g, (k < n)%nat /\ last_request (inside k g) <> None).
Proof.
  induction n as [|n [IH|(k & g & Hk & Hg)]].
  - left. intros k g Hk. lia.
  - assert (Hn : (forall g, last_request (inside n g) = None)
                 \/ (exists g, last_request (inside n g) <> None)).
    { destruct (last_request (inside n AfterTest1)) eqn:G1;
        [right; exists AfterTest1; by rewrite G1|].
      destruct (last_request (inside n AfterTest2)) eqn:G2;
        [right; exists AfterTest2; by rewrite G2|].
      destruct (last_request (inside n AfterTest3)) eqn:G3;
        [right; exists AfterTest3; by rewrite G3|].
      destruct (last_request (inside n BeforeReset)) eqn:G4;
        [right; exists BeforeReset; by rewrite G4|].
      destruct (last_request (inside n AfterReset)) eqn:G5;
        [right; exists AfterReset; by rewrite G5|].
      destruct (last_request (inside n AfterHook)) eqn:G6;
        [right; exists AfterHook; by rewrite G6|].
      destruct (last_request (inside n BeforeAnswer)) eqn:G7;
        [right; exists BeforeAnswer; by rewrite G7|].
      left. by intros []. }
    destruct Hn as [Hn|[g Hg]].
    + left. intros k g Hk.
      destruct (Nat.eq_dec k n) as [->|Hne]; [apply Hn|apply IH; lia].
    + right. exists n, g. split; [lia|exact Hg].
  - right. exists k, g. split; [lia|exact Hg].
Qed.

(** Without the console, and as long as no recognised signal lands
    inside a poll, the loop ends at the first poll that finds a request
    to stop, and until then every burst of signals that ends in a request
    to reload is answered by one call of the reload hook. *)
Lemma simple_sleep_loop `{Signals} (config : DaemonConfig)
    (arrivals typing : nat -> list Z) (inside : nat -> Gap -> list Z)
    (fuel : nat) :
  hasTestConsole config = false ->
  forall (k : nat) (keys keys' : list Z) (m m' : Machine),
  (forall j g, (k <= j < k + fuel)%nat -> last_request (inside j g) = None) ->
  m_State (dmn m) = Running ->
  m_HandlerReload (dmn m) = Some DaemonSimple.reload_hook ->
  m_HandlerUser1 (dmn m) = None ->
  m_HandlerUser2 (dmn m) = None ->
  DaemonSimple.main_loop_async config arrivals typing inside fuel k keys m
  = Some (keys', m') ->
  exists n,
    (n < fuel)%nat
    /\ last_request (arrivals (k + n)%nat) = Some Stop
    /\ (forall j, (j < n)%nat ->
          last_request (arrivals (k + j)%nat) <> Some Stop)
    /\ invocations HReload (trace m')
       = (invocations HReload (trace m) + bursts Reload arrivals k n)%nat.
Proof.
  intros Hconsole.
  induction fuel as [|fuel IH];
    intros k keys keys' m m' Hq Hs Hr H1 H2 Hrun; [discriminate Hrun|].
  simpl in Hrun. rewrite Hconsole in Hrun.
  pose proof (deliver_state (arrivals k) m) as Hstate.
  pose proof (deliver_quiet (arrivals k) m) as Hquiet.
  rewrite Hs in Hstate.
  set (m0 := deliver (arrivals k) m) in *.
  assert (Hr0 : m_HandlerReload (dmn m0) = Some DaemonSimple.reload_hook)
    by (rewrite <- Hr; apply (Hquiet HReload)).
  assert (H10 : m_HandlerUser1 (dmn m0) = None)
    by (rewrite <- H1; apply (Hquiet HUser1)).
  assert (H20 : m_HandlerUser2 (dmn m0) = None)
    by (rewrite <- H2; apply (Hquiet HUser2)).
  assert (Hcalls : invocations HReload (trace m0)
                   = invocations HReload (trace m))
    by (by destruct (Hquiet HReload)).
  assert (Hqk : forall g, last_request (inside k g) = None)
    by (intros g; apply Hq; lia).
  destruct (isRunning_async_quiet (inside k) m0 Hqk Hr0 H10 H20)
    as (Hh1 & Hb & Hs1 & Hi1).
  destruct (isRunning_async (inside k) m0) as [running m1].
  simpl in Hh1, Hb, Hs1, Hi1.
  rewrite Hstate in Hs1, Hi1.
  destruct running.
  - assert (Hrun1 : m_State (dmn m1) = Running)
      by (by destruct (m_State (dmn m1))).
    assert (Hno : last_request (arrivals k) <> Some Stop).
    { intros Hstop. rewrite Hstop in Hs1. simpl in Hs1. congruence. }
    destruct (IH (S k) keys keys' m1 m') as (n & Hn & Hstop & Hmin & Hinv);
      try done.
    + intros j g Hj. apply Hq. lia.
    + change (handler_of HReload (dmn m1) = Some DaemonSimple.reload_hook).
      by rewrite Hh1.
    + change (handler_of HUser1 (dmn m1) = None). by rewrite Hh1.
    + change (handler_of HUser2 (dmn m1) = None). by rewrite Hh1.
    + exists (S n). split; [lia|].
      replace (k + S n)%nat with (S k + n)%nat by lia.
      split; [exact Hstop|]. split.
      * intros [|j] Hj; [by rewrite Nat.add_0_r|].
        replace (k + S j)%nat with (S k + j)%nat by lia.
        apply Hmin. lia.
      * rewrite Hinv, Hi1, Hcalls. simpl.
        destruct (last_request (arrivals k)) as [[]|]; simpl; lia.
  - injection Hrun as <- <-.
    exists 0%nat. rewrite Nat.add_0_r.
    split; [lia|]. split.
    + destruct (last_request (arrivals k)) as [s|] eqn:Hlr; simpl in *.
      * destruct (last_request_cases _ _ Hlr) as [Hn1 Hn2].
        destruct s; simpl in *; try done; by rewrite Hs1 in Hb.
      * by rewrite Hs1 in Hb.
    + split; [intros j Hj; lia|].
      rewrite Hi1, Hcalls. simpl.
      destruct (last_request (arrivals k)) as [s|] eqn:Hlr; simpl in *.
      * destruct (last_request_cases _ _ Hlr) as [Hn1 Hn2].
        destruct s; simpl in *; try done; try lia; by rewrite Hs1 in Hb.
      * lia.
Qed.


(** With no signal inside it the poll is [isRunning] itself, and the loop
    and [main] are the ones above. *)
Lemma isRunning_async_none `{Signals} (m : Machine) :
  isRunning_async (fun _ => []) m = isRunning m.
Proof.
  unfold isRunning_async, isRunning, perform_async, performReloadIfRequired,
    performUser1IfRequired, performUser2IfRequired, arrive; unfold_m.
  simpl.
  destruct (m_State (dmn m)) eqn:Hs; simpl; repeat (rewrite Hs; simpl);
    try reflexivity;
    match goal with
    | |- context [match ?f with Some _ => _ | None => _ end] =>
        destruct f as [cb|]; simpl; [|reflexivity]
    end;
    destruct (cb (env m)) as [r e]; simpl;
    by destruct (optional_eq r false).
Qed.

Lemma main_loop_async_none `{Signals} (config : DaemonConfig)
    (arrivals typing : nat -> list Z) (fuel : nat) :
  forall (k : nat) (keys : list Z) (m : Machine),
  DaemonSimple.main_loop_async config arrivals typing (fun _ _ => []) fuel k
    keys m
  = DaemonSimple.main_loop config arrivals typing fuel k keys m.
Proof.
  induction fuel as [|fuel IH]; intros k keys m; [reflexivity|].
  simpl. rewrite isRunning_async_none.
  destruct (isRunning (deliver (arrivals k) m)) as [[|] m1]; [|reflexivity].
  destruct (hasTestConsole config); [|apply IH].
  destruct (DaemonSimple.handle_console keys (env (deliver (typing k) m1)))
    as [[result keys1] e3].
  apply IH.
Qed.

(** X17. Without the console the simple host ends successfully only
    because of a signal. Either a recognised signal has landed inside
    one of its polls; or the poll that ends the loop is the first one
    whose signals close with a request to stop, and up to then the reload
    hook has been called once for every burst that closed with a hang-up
    signal. The two user hooks are the ones [main] leaves empty. *)
Theorem simple_host_runs_until_told `{Signals} (config : DaemonConfig)
    (keys : list Z) (arrivals typing : nat -> list Z)
    (inside : nat -> Gap -> list Z) (fuel : nat) (daemon m' : Machine) :
  hasTestConsole config = false ->
  m_HandlerUser1 (dmn daemon) = None ->
  m_HandlerUser2 (dmn daemon) = None ->
  DaemonSimple.run_daemon_async config keys arrivals typing inside fuel daemon
  = Some (EXIT_SUCCESS, m') ->
  (exists k g, (k < fuel)%nat /\ last_request (inside k g) <> None)
  \/ (exists k,
        (k < fuel)%nat
        /\ last_request (arrivals k) = Some Stop
        /\ (forall j, (j < k)%nat -> last_request (arrivals j) <> Some Stop)
        /\ invocations HReload (trace m')
           = (invocations HReload (trace daemon)
              + bursts Reload arrivals 0 k)%nat).
Proof.
  intros Hconsole H1 H2.
  destruct (polls_quiet_or_not inside fuel) as [Hq|Hloud]; [|by left].
  intros Hrun. right. revert Hrun.
  unfold DaemonSimple.run_daemon_async.
  rewrite Hconsole, startAll_eq. simpl.
  match goal with
  | |- context [makeDaemon _ ?m] => set (m2 := m)
  end.
  assert (Hfate :
    exists r m3,
      (if isDaemon config then makeDaemon (pidFile config) m2 else (None, m2))
      = (r, m3)
      /\ (forall h, handler_of h (dmn m3) = handler_of h (dmn m2))
      /\ m_State (dmn m3) = Running
      /\ (forall h, invocations h (trace m3) = invocations h (trace m2))).
  { destruct (isDaemon config).
    - destruct (makeDaemon_for_hosts (pidFile config) m2)
        as (Hh & Hs & Hi & _).
      destruct (makeDaemon (pidFile config) m2) as [r m3]. simpl in *.
      by exists r, m3.
    - by exists None, m2. }
  destruct Hfate as (r & m3 & -> & Hh & Hs & Hi).
  destruct (optional_eq r false); [discriminate|].
  destruct (DaemonSimple.main_loop_async config arrivals typing inside fuel 0
              keys m3) as [[keys5 m5]|] eqn:Hloop; [|discriminate].
  assert (Hr3 : m_HandlerReload (dmn m3) = Some DaemonSimple.reload_hook).
  { change (handler_of HReload (dmn m3) = Some DaemonSimple.reload_hook).
    by rewrite Hh. }
  assert (H13 : m_HandlerUser1 (dmn m3) = None).
  { change (handler_of HUser1 (dmn m3) = None). by rewrite Hh. }
  assert (H23 : m_HandlerUser2 (dmn m3) = None).
  { change (handler_of HUser2 (dmn m3) = None). by rewrite Hh. }
  assert (Hq0 : forall j g, (0 <= j < 0 + fuel)%nat ->
                  last_request (inside j g) = None)
    by (intros j g Hj; apply Hq; lia).
  destruct (simple_sleep_loop config arrivals typing inside fuel Hconsole
              0%nat keys keys5 m3 m5 Hq0 Hs Hr3 H13 H23 Hloop)
    as (k & Hk & Hstop & Hmin & Hinv).
  destruct (closeAll m5) as [r6 m6] eqn:Hclose.
  rewrite closeAll_eq in Hclose. injection Hclose as <- <-.
  destruct (optional_eq _ false); [discriminate|].
  intros Hrun. injection Hrun as <-. simpl.
  exists k. repeat split; try done.
  rewrite invocations_app, Hinv, Hi. subst m2. simpl.
  rewrite invocations_app. simpl.
  unfold invoked. destruct (m_HandlerBeforeToExit (dmn m5)); simpl; lia.
Qed.

Lemma simple_host_runs_until_told_witness :
  exists m',
    DaemonSimple.run_daemon_async new_DaemonConfig [] (fun _ => [])
      (fun _ => [])
      (fun (k : nat) (g : Gap) =>
         match k, g with 0%nat, AfterTest1 => [1] | _, _ => [] end)
      1 (new_Machine sample_env)
    = Some (EXIT_SUCCESS, m')
    /\ invocations HReload (trace m') = 0%nat
    /\ exists k g,
         (k < 1)%nat
         /\ last_request
              (match k, g with 0%nat, AfterTest1 => [1] | _, _ => [] end)
            <> None.
Proof.
  pose (r := DaemonSimple.run_daemon_async new_DaemonConfig [] (fun _ => [])
               (fun _ => [])
               (fun (k : nat) (g : Gap) =>
                  match k, g with 0%nat, AfterTest1 => [1] | _, _ => [] end)
               1 (new_Machine sample_env)).
  assert (Hrun :
    DaemonSimple.run_daemon_async new_DaemonConfig [] (fun _ => [])
      (fun _ => [])
      (fun (k : nat) (g : Gap) =>
         match k, g with 0%nat, AfterTest1 => [1] | _, _ => [] end)
      1 (new_Machine sample_env) = r) by reflexivity.
  vm_compute in r. subst r.
  eexists. split; [exact Hrun|]. split; [reflexivity|].
  destruct (simple_host_runs_until_told new_DaemonConfig [] (fun _ => [])
              (fun _ => [])
              (fun (k : nat) (g : Gap) =>
                 match k, g with 0%nat, AfterTest1 => [1] | _, _ => [] end)
              1%nat (new_Machine sample_env) _ eq_refl eq_refl eq_refl Hrun)
    as [Hloud|(k & Hk & Hstop & _)].
  - exact Hloud.
  - exfalso. assert (k = 0%nat) as -> by lia. discriminate Hstop.
Defined.

Lemma run_daemon_async_none `{Signals} (config : DaemonConfig)
    (keys : list Z) (arrivals typing : nat -> list Z) (fuel : nat)
    (daemon : Machine) :
  DaemonSimple.run_daemon_async config keys arrivals typing (fun _ _ => [])
    fuel daemon
  = DaemonSimple.run_daemon config keys arrivals typing fuel daemon.
Proof.
  unfold DaemonSimple.run_daemon_async, DaemonSimple.run_daemon.
  destruct (startAll _) as [r2 m2].
  destruct (optional_eq r2 false); [reflexivity|].
  destruct (if isDaemon config then _ else _) as [r3 m3].
  destruct (optional_eq r3 false); [reflexivity|].
  by rewrite main_loop_async_none.
Qed.

(** A second hang-up signal that lands when the reload hook has just
    returned: the poll resets the state and calls the hook for the first
    signal, finds the request of the second one in its last comparison
    and answers [false]; the host closes and ends successfully, and no
    signal to stop was ever sent. *)
Example hangup_after_the_reload_hook :
  option_map
    (fun r => (fst r, m_State (dmn (snd r)),
               List.filter is_invoke (trace (snd r))))
    (DaemonSimple.run_daemon_async new_DaemonConfig []
       (fun _ => [1]) (fun _ => [])
       (fun (k : nat) (g : Gap) =>
          match k, g with 0%nat, AfterHook => [1] | _, _ => [] end)
       1 (new_Machine sample_env))
  = Some (EXIT_SUCCESS, Stop,
          [EvInvoke HStart (Some true); EvInvoke HReload (Some true);
           EvInvoke HClose (Some true)]).
Proof. reflexivity. Qed.

(** ** Reading the options: [daemon_app] *)

(** X18. The parser of the application host never ends the program with
    a failure status: when it exits, the status is success and one of
    [-h], [-?] and [-v] is among the answers of [getopt_long]. *)
Theorem app_host_never_exits_with_failure (verString argv0 : string)
    (results : list (Z * string)) (config : DaemonConfig) (e e' : Env)
    (status : Z) :
  DaemonApp.process_command_line verString argv0 results config e
  = (Exit status, e') ->
  status = EXIT_SUCCESS
  /\ Exists (fun r => fst r ∈ [chr "h"; chr "?"; chr "v"]) results.
Proof.
  revert config e.
  induction results as [|[var optarg] results IH]; intros config e Hrun;
    [discriminate Hrun|].
  simpl in Hrun.
  assert (Hlater : forall config1 e1,
            DaemonApp.process_command_line verString argv0 results config1 e1
            = (Exit status, e') ->
            status = EXIT_SUCCESS
            /\ Exists (fun r => fst r ∈ [chr "h"; chr "?"; chr "v"])
                 ((var, optarg) :: results)).
  { intros config1 e1 Hrun1. destruct (IH _ _ Hrun1) as [Hs Hex].
    split; [exact Hs|]. by apply Exists_cons_tl. }
  assert (Hnow : var ∈ [chr "h"; chr "?"; chr "v"] ->
            Exists (fun r => fst r ∈ [chr "h"; chr "?"; chr "v"])
              ((var, optarg) :: results)).
  { intros Hv. by apply Exists_cons_hd. }
  repeat match type of Hrun with
         | context [?a =? ?b] =>
             destruct (Z.eqb_spec a b) as [->|?]; simpl in Hrun
         end; try discriminate Hrun; try (by eapply Hlater);
    try (injection Hrun as <- _; split; [reflexivity|];
         apply Hnow; rewrite !elem_of_cons; tauto);
    unfold DaemonApp.handle_option_argument in Hrun;
    destruct (String.eqb optarg ""); simpl in Hrun; by eapply Hlater.
Qed.

Lemma app_host_never_exits_with_failure_witness :
  fst (DaemonApp.process_command_line "1.0" "daemon"
         [(chr "P", ""); (chr "L", "x"); (chr "v", "")]
         new_DaemonConfig sample_env) = Exit EXIT_SUCCESS
  /\ EXIT_SUCCESS = EXIT_SUCCESS.
Proof.
  split; [reflexivity|].
  exact (proj1 (app_host_never_exits_with_failure "1.0" "daemon"
                  [(chr "P", ""); (chr "L", "x"); (chr "v", "")]
                  new_DaemonConfig sample_env _ EXIT_SUCCESS eq_refl)).
Defined.

(** An answer after which the parser of [daemon_app] goes on. *)
Lemma app_parse_step (verString argv0 : string) (var : Z) (optarg : string)
    (results : list (Z * string)) (config : DaemonConfig) (e : Env) :
  var ∉ [-1; chr "h"; chr "?"; chr "v"] ->
  exists e1,
    DaemonApp.process_command_line verString argv0
      ((var, optarg) :: results) config e
    = DaemonApp.process_command_line verString argv0 results
        (let mode := last_mode [(var, optarg)]
                       (isDaemon config, hasTestConsole config) in
         {| pidFile := last_argument (chr "P") [(var, optarg)]
                         (pidFile config);
            isDaemon := fst mode;
            hasTestConsole := snd mode;
            pathConfigFile := last_argument (chr "x") [(var, optarg)]
                                (pathConfigFile config);
            pathConfigFolder := last_argument (chr "S") [(var, optarg)]
                                  (pathConfigFolder config) |}) e1.
Proof.
  rewrite !not_elem_of_cons. intros (H1 & H2 & H3 & H4 & _).
  simpl. unfold last_mode, last_argument. simpl.
  repeat match goal with
         | |- context [?a =? ?b] =>
             destruct (Z.eqb_spec a b) as [->|?]; simpl
         end; try done;
    unfold DaemonApp.handle_option_argument;
    try destruct (String.eqb optarg ""); simpl;
    destruct config; by eexists.
Qed.

(** X19. Without [-h], [-?] and [-v] the parser of the application host
    always returns to [main]: the mode is the one of the last [-D] or
    [-T], and each path is the argument of the last option that names it,
    stored even when it is empty. *)
Theorem app_host_parsed_configuration (verString argv0 : string)
    (results : list (Z * string)) (config : DaemonConfig) (e : Env) :
  Forall (fun r => fst r ∉ [-1; chr "h"; chr "?"; chr "v"]) results ->
  exists config' e',
    DaemonApp.process_command_line verString argv0 results config e
    = (Continue config', e')
    /\ (isDaemon config', hasTestConsole config')
       = last_mode results (isDaemon config, hasTestConsole config)
    /\ pidFile config' = last_argument (chr "P") results (pidFile config)
    /\ pathConfigFolder config'
       = last_argument (chr "S") results (pathConfigFolder config)
    /\ pathConfigFile config'
       = last_argument (chr "x") results (pathConfigFile config).
Proof.
  intros Hall. revert config e.
  induction Hall as [|[var optarg] results Hvar Hrest IH]; intros config e.
  - exists config, e. by repeat split.
  - destruct (app_parse_step verString argv0 var optarg results config e Hvar)
      as [e1 ->].
    match goal with
    | |- context [DaemonApp.process_command_line _ _ results ?c e1] =>
        destruct (IH c e1) as (config' & e' & Hrun & Hm & Hp & Hs & Hx)
    end.
    exists config', e'. split; [exact Hrun|].
    rewrite Hm, Hp, Hs, Hx. simpl.
    unfold last_mode, last_argument. simpl.
    split; [|done].
    by destruct (if var =? chr "D" then _ else _).
Qed.

Lemma app_host_parsed_configuration_witness :
  Forall (fun r => fst r ∉ [-1; chr "h"; chr "?"; chr "v"])
    [(chr "D", ""); (chr "T", ""); (chr "P", ""); (chr "L", "x")]
  /\ exists config' e',
       DaemonApp.process_command_line "1.0" "daemon"
         [(chr "D", ""); (chr "T", ""); (chr "P", ""); (chr "L", "x")]
         new_DaemonConfig sample_env = (Continue config', e')
       /\ hasTestConsole config' = true
       /\ pidFile config' = "".
Proof.
  assert (Hall : Forall (fun r => fst r ∉ [-1; chr "h"; chr "?"; chr "v"])
            [(chr "D", ""); (chr "T", ""); (chr "P", ""); (chr "L", "x")]).
  { rewrite !Forall_cons, Forall_nil. simpl.
    rewrite !not_elem_of_cons.
    repeat split; try apply not_elem_of_nil; by vm_compute. }
  split; [exact Hall|].
  destruct (app_host_parsed_configuration "1.0" "daemon" _
              new_DaemonConfig sample_env Hall)
    as (config' & e' & Hrun & Hm & Hp & _).
  exists config', e'. split; [exact Hrun|].
  split; [|exact Hp].
  simpl in Hm. by injection Hm as _ ->.
Defined.
